(** * Adaptive Tab Bar Colour: the background script

    A shallow embedding of [src/scr/background.js] and the properties of
    its page classifier, contrast corrector, palette generator and
    message handler.

    JavaScript numbers are modelled by real numbers (arithmetic is exact),
    strings by [string] (ASCII text), [undefined] by [None], and an
    exception or a rejected promise by [Throw]. *)

From Stdlib Require Import Reals Lra List String Ascii Bool ZArith.
Import ListNotations.
Open Scope string_scope.
Open Scope R_scope.

(** ** Exceptions *)

Inductive JsError := TypeError | SyntaxError | ConnectionError.

Inductive Exc (A : Type) :=
| Ok (a : A)
| Throw (e : JsError).
Arguments Ok {A} a.
Arguments Throw {A} e.

Definition bind {A B} (m : Exc A) (k : A -> Exc B) : Exc B :=
  match m with
  | Ok a => k a
  | Throw e => Throw e
  end.

Notation "x <- m ;; k" := (bind m (fun x => k))
  (at level 61, m at next level, right associativity).

(** [x > y] on JavaScript numbers. *)
Definition gt (x y : R) : bool := if Rlt_dec y x then true else false.

(** ** Colours *)

(** The RGBA value type: channels [r], [g], [b] in 0..255, alpha in 0..1. *)
Module Colour.
Record t := RGBA { r : R; g : R; b : R; a : R }.
End Colour.
Abbreviation RGBA := Colour.RGBA.

(** The interface of [./colour.js], as imported by the background script
    ([import { rgba, dimColour, contrastRatio, relativeLuminance }]).
    [rgba] turns a colour notation (channel array, CSS text, object) into
    the RGBA value type; a notation is represented by the colour it
    denotes, so [rgba] is the identity of the model and [dimColour]
    returns the colour its CSS text denotes. *)
Class ColourLibrary := {
  relativeLuminance : Colour.t -> R;
  contrastRatio : Colour.t -> Colour.t -> R;
  dimColour : Colour.t -> R -> Colour.t
}.

Definition rgba (c : Colour.t) : Colour.t := c.

(** ** Schemes and colour codes *)

(** [current.scheme] is ["light"] or ["dark"]. *)
Inductive Scheme := light | dark.

Definition Scheme_eqb (x y : Scheme) : bool :=
  match x, y with
  | light, light | dark, dark => true
  | _, _ => false
  end.

(** An object [{ light: ..., dark: ... }] indexed by a scheme; a missing or
    [undefined] member is [None]. *)
Definition PerScheme := Scheme -> option Colour.t.

Definition per_scheme (l d : option Colour.t) : PerScheme :=
  fun s => match s with light => l | dark => d end.

(** The colour codes of [setFrameColour]'s documentation. *)
Inductive ColourCode :=
  HOME | FALLBACK | PLAINTEXT | SYSTEM | ADDON | PDFVIEWER | IMAGEVIEWER | DEFAULT.

(** A frame colour: an rgba object or a colour code ([object | string]). *)
Inductive FrameColour :=
| Code (code : ColourCode)
| Literal (colour : Colour.t).

(** ** Preferences and process-wide state *)

(** The value a custom rule maps a site to, as stored in the preferences. *)
Definition CustomRule := string.

(** The members of [pref] the background script reads.  [customRule] lists
    the own keys of the object in [for ... in] order; keys are unique. *)
Module Pref.
Record t := mk {
  tabbar : R;
  tabSelected : R;
  toolbar : R;
  toolbarBorder : R;
  toolbarField : R;
  toolbarFieldBorder : R;
  toolbarFieldOnFocus : R;
  sidebar : R;
  sidebarBorder : R;
  popup : R;
  popupBorder : R;
  minContrast_light : R;
  minContrast_dark : R;
  allowDarkLight : bool;
  dynamic : bool;
  noThemeColour : bool;
  customRule : list (string * CustomRule)
}.
End Pref.

Module Current.
Record t := mk {
  scheme : Scheme;
  homeBackground_light : Colour.t;
  homeBackground_dark : Colour.t;
  fallbackColour_light : Colour.t;
  fallbackColour_dark : Colour.t
}.

Definition reversedScheme (current : t) : Scheme :=
  if Scheme_eqb (scheme current) light then dark else light.
End Current.

(** Lookup table for codified colours. *)
Definition colourCode (current : Current.t) (code : ColourCode) : PerScheme :=
  match code with
  | HOME =>
      per_scheme (Some (Current.homeBackground_light current))
                 (Some (Current.homeBackground_dark current))
  | FALLBACK =>
      per_scheme (Some (Current.fallbackColour_light current))
                 (Some (Current.fallbackColour_dark current))
  | PLAINTEXT =>
      per_scheme (Some (rgba (RGBA 236 236 236 1))) (Some (rgba (RGBA 50 50 50 1)))
  | SYSTEM =>
      per_scheme (Some (rgba (RGBA 255 255 255 1))) (Some (rgba (RGBA 30 30 30 1)))
  | ADDON =>
      per_scheme (Some (rgba (RGBA 236 236 236 1))) (Some (rgba (RGBA 50 50 50 1)))
  | PDFVIEWER =>
      per_scheme (Some (rgba (RGBA 249 249 250 1))) (Some (rgba (RGBA 56 56 61 1)))
  | IMAGEVIEWER =>
      per_scheme None (Some (rgba (RGBA 33 33 33 1)))
  | DEFAULT =>
      per_scheme (Some (rgba (RGBA 255 255 255 1))) (Some (rgba (RGBA 28 27 34 1)))
  end.

(** ** Static page tables *)

(** [default_aboutPageColour] and [default_protectedPageColour] of
    [./default_values.js]: a table from a pathname or hostname to a
    per-scheme entry. *)
Definition PageTable := string -> option PerScheme.

(** [table[key]?.[scheme]] *)
Definition entry (table : PageTable) (key : string) (s : Scheme) : option Colour.t :=
  match table key with
  | Some e => e s
  | None => None
  end.

Definition getAboutPageColour (default_aboutPageColour : PageTable)
    (pref : Pref.t) (current : Current.t) (pathname : string) : FrameColour :=
  match entry default_aboutPageColour pathname (Current.scheme current) with
  | Some c => Literal (rgba c)
  | None =>
      match entry default_aboutPageColour pathname (Current.reversedScheme current),
            Pref.allowDarkLight pref with
      | Some c, true => Literal (rgba c)
      | _, _ => Code DEFAULT
      end
  end.

Definition getProtectedPageColour (default_protectedPageColour : PageTable)
    (pref : Pref.t) (current : Current.t) (hostname : string) : FrameColour :=
  match entry default_protectedPageColour hostname (Current.scheme current) with
  | Some c => Literal (rgba c)
  | None =>
      match entry default_protectedPageColour hostname (Current.reversedScheme current),
            Pref.allowDarkLight pref with
      | Some c, true => Literal (rgba c)
      | _, _ => Code FALLBACK
      end
  end.

(** ** Regular expressions

    The fragment of JavaScript's [RegExp] that the pattern
    [`https?:\/\/${tab.title}$`] stays in for a title of ordinary
    characters, [.], [*], [+], [?] and [$]: a sequence of single-character
    atoms, each with an optional quantifier, and end-of-input assertions.
    No flag is set: matching is case-sensitive and [$] is the end of the
    text. *)
Module RegExp.

Inductive atom :=
| Char (c : ascii)
| AnyChar.

Inductive quantifier := Once | Optional | Star | Plus.

Inductive term :=
| Atom (a : atom) (q : quantifier)
| EndOfInput.

(** The result of [new RegExp(source)]: a pattern of the fragment, a
    [SyntaxError], or a source outside the fragment. *)
Inductive compiled :=
| Pattern (p : list term)
| Invalid
| Outside.

(** What the last term read allows next: nothing to repeat, a quantifier,
    or only the lazy mark [?] of a quantifier. *)
Inductive last_term := Fresh | Quantifiable | Quantified.

Definition quantifier_of (c : ascii) : option quantifier :=
  if Ascii.eqb c "*" then Some Star
  else if Ascii.eqb c "+" then Some Plus
  else if Ascii.eqb c "?" then Some Optional
  else None.

(** Groups, classes, escapes, alternation, braces and [^]. *)
Definition outside_fragment (c : ascii) : bool :=
  existsb (Ascii.eqb c) (list_ascii_of_string "\^()[]{}|").

Fixpoint parse (src : list ascii) (acc : list term) (st : last_term) : compiled :=
  match src with
  | [] => Pattern (rev acc)
  | c :: src' =>
      match quantifier_of c with
      | Some q =>
          match st, acc with
          | Quantifiable, Atom a _ :: acc' => parse src' (Atom a q :: acc') Quantified
          | Quantified, _ =>
              if Ascii.eqb c "?" then parse src' acc Fresh else Invalid
          | _, _ => Invalid
          end
      | None =>
          if Ascii.eqb c "$" then parse src' (EndOfInput :: acc) Fresh
          else if Ascii.eqb c "." then parse src' (Atom AnyChar Once :: acc) Quantifiable
          else parse src' (Atom (Char c) Once :: acc) Quantifiable
      end
  end.

Definition compile (source : string) : compiled :=
  let src := list_ascii_of_string source in
  if existsb outside_fragment src then Outside else parse src [] Fresh.

(** [.] matches any character but a line terminator. *)
Definition line_terminator (c : ascii) : bool :=
  Ascii.eqb c "010" || Ascii.eqb c "013".

Definition atom_matches (a : atom) (c : ascii) : bool :=
  match a with
  | Char x => Ascii.eqb x c
  | AnyChar => negb (line_terminator c)
  end.

(** Some prefix of [s] matches the terms [p]. *)
Fixpoint matches_here (p : list term) (s : list ascii) {struct p} : bool :=
  match p with
  | [] => true
  | EndOfInput :: p' =>
      match s with
      | [] => matches_here p' []
      | _ :: _ => false
      end
  | Atom a q :: p' =>
      let fix many (s : list ascii) : bool :=
        matches_here p' s ||
        match s with
        | c :: s' => atom_matches a c && many s'
        | [] => false
        end in
      match q with
      | Once =>
          match s with
          | c :: s' => atom_matches a c && matches_here p' s'
          | [] => false
          end
      | Optional =>
          match s with
          | c :: s' => atom_matches a c && matches_here p' s'
          | [] => false
          end || matches_here p' s
      | Star => many s
      | Plus =>
          match s with
          | c :: s' => atom_matches a c && many s'
          | [] => false
          end
      end
  end.

(** The pattern matches somewhere in [s]. *)
Fixpoint search (p : list term) (s : list ascii) : bool :=
  matches_here p s ||
  match s with
  | _ :: s' => search p s'
  | [] => false
  end.

End RegExp.

(** ** The browser *)

Module Tab.
Record t := mk {
  id : Z;
  windowId : Z;
  active : bool;
  url : string;
  title : string;
  favIconUrl : option string
}.
End Tab.

(** The [conf] member of a [COLOUR_REQUEST] message. *)
Module Conf.
Record t := mk {
  dynamic : bool;
  noThemeColour : bool;
  customRule : option CustomRule
}.
End Conf.

Module Request.
Record t := mk { reason : string; conf : Conf.t }.
End Request.

Module Response.
Record t := mk { colour : FrameColour }.
End Response.

(** The host environment: [new URL(url).hostname] (a [TypeError] on a
    text that is no URL), [browser.tabs.sendMessage] (the value the
    promise resolves to, [None] for no response, or its rejection), and
    [text.match(new RegExp(source))] for a source outside the fragment of
    [RegExp]. *)
Module Browser.
Record t := mk {
  URL_hostname : string -> Exc string;
  tabs_sendMessage : Z -> Request.t -> Exc (option Response.t);
  RegExp_outside : string -> string -> Exc bool
}.
End Browser.

(** [text.match(new RegExp(source))] is not [null]. *)
Definition String_match (browser : Browser.t) (text source : string) : Exc bool :=
  match RegExp.compile source with
  | RegExp.Pattern p => Ok (RegExp.search p (list_ascii_of_string text))
  | RegExp.Invalid => Throw SyntaxError
  | RegExp.Outside => Browser.RegExp_outside browser text source
  end.

Definition startsWith (text search : string) : bool := String.prefix search text.

Definition endsWith (text search : string) : bool :=
  String.prefix (string_of_list_ascii (rev (list_ascii_of_string search)))
                (string_of_list_ascii (rev (list_ascii_of_string text))).

(** ** Variable bindings

    A [const] binding rejects assignment with a [TypeError]; a [let]
    binding takes the value. *)
Inductive Declaration := Const | Let.

Record Binding (A : Type) := Bound { declared : Declaration; value : A }.
Arguments Bound {A} declared value.
Arguments declared {A} _.
Arguments value {A} _.

Definition assign {A} (x : Binding A) (v : A) : Exc (Binding A) :=
  match declared x with
  | Const => Throw TypeError
  | Let => Ok (Bound Let v)
  end.

(** ** Web pages *)

(** How the body of a loop ends: falls through to the next round, or [break]. *)
Inductive Completion := Next | Break.

(** The [try] block of the custom-rule loop, for the key [site] and its
    value [rule] = [pref.customRule[site]]. *)
Definition customRule_try (browser : Browser.t) (url site : string) (rule : CustomRule)
    (customRule : Binding (option CustomRule))
    : Exc (Binding (option CustomRule) * Completion) :=
  if String.eqb url site then
    customRule' <- assign customRule (Some rule) ;;
    Ok (customRule', Break)
  else
    hostname <- Browser.URL_hostname browser url ;;
    if String.eqb hostname site then
      customRule' <- assign customRule (Some rule) ;;
      Ok (customRule', Break)
    else Ok (customRule, Next).

(** [for (const site in pref.customRule) { try { ... } catch (e) { continue; } }] *)
Fixpoint customRule_loop (browser : Browser.t) (url : string)
    (rules : list (string * CustomRule)) (customRule : Binding (option CustomRule))
    : Exc (Binding (option CustomRule)) :=
  match rules with
  | [] => Ok customRule
  | (site, rule) :: rest =>
      match customRule_try browser url site rule customRule with
      | Ok (customRule', Break) => Ok customRule'
      | Ok (customRule', Next) => customRule_loop browser url rest customRule'
      | Throw _ => customRule_loop browser url rest customRule
      end
  end.

(** The [COLOUR_REQUEST] message [getWebPageColour] sends for a tab. *)
Definition colourRequest (browser : Browser.t) (pref : Pref.t) (tab : Tab.t)
    : Exc Request.t :=
  let url := Tab.url tab in
  customRule <- customRule_loop browser url (Pref.customRule pref) (Bound Const None) ;;
  Ok (Request.mk "COLOUR_REQUEST"
        (Conf.mk (Pref.dynamic pref) (Pref.noThemeColour pref) (value customRule))).

(** [tab] is [None] when the function is called without an argument. *)
Definition getWebPageColour (browser : Browser.t) (pref : Pref.t) (tab : option Tab.t)
    : Exc FrameColour :=
  match tab with
  | None => Throw TypeError
  | Some tab =>
      let url := Tab.url tab in
      request <- colourRequest browser pref tab ;;
      response <- Browser.tabs_sendMessage browser (Tab.id tab) request ;;
      match response with
      | Some response => Ok (Response.colour response)
      | None =>
          if startsWith url "data:image" then Ok (Code IMAGEVIEWER)
          else if endsWith url ".pdf" || endsWith (Tab.title tab) ".pdf" then
            Ok (Code PDFVIEWER)
          else if match Tab.favIconUrl tab with
                  | Some favIconUrl => startsWith favIconUrl "chrome:"
                  | None => false
                  end then Ok (Code DEFAULT)
          else
            matched <- String_match browser url ("https?://" ++ Tab.title tab ++ "$") ;;
            if matched then Ok (Code PLAINTEXT) else Ok (Code FALLBACK)
      end
  end.

(** ** Contrast correction *)

Module Corrected.
Record t := mk { colour : Colour.t; scheme : Scheme }.
End Corrected.

(** [None] is the [undefined] a call returns that falls past the last
    [else if].  The quotients are those of real numbers: where a divisor
    is zero JavaScript computes with [Infinity] or [NaN], and the dimming
    factor of the model is not that of the code.  No test of a branch
    depends on a quotient. *)
Definition contrastCorrection `{ColourLibrary} (pref : Pref.t) (current : Current.t)
    (colour : Colour.t) : option Corrected.t :=
  let contrastRatio_dark := contrastRatio colour (rgba (RGBA 255 255 255 1)) in
  let contrastRatio_light := contrastRatio colour (rgba (RGBA 0 0 0 1)) in
  let eligibility_dark := gt contrastRatio_dark (Pref.minContrast_dark pref) in
  let eligibility_light := gt contrastRatio_light (Pref.minContrast_light pref) in
  if eligibility_light &&
     (Scheme_eqb (Current.scheme current) light ||
      (Scheme_eqb (Current.scheme current) dark && Pref.allowDarkLight pref)) then
    Some (Corrected.mk colour light)
  else if eligibility_dark &&
     (Scheme_eqb (Current.scheme current) dark ||
      (Scheme_eqb (Current.scheme current) light && Pref.allowDarkLight pref)) then
    Some (Corrected.mk colour dark)
  else if Scheme_eqb (Current.scheme current) light then
    let dim :=
      ((Pref.minContrast_light pref / contrastRatio_light - 1) * relativeLuminance colour) /
      (255 - relativeLuminance colour) in
    Some (Corrected.mk (rgba (dimColour colour dim)) light)
  else if Scheme_eqb (Current.scheme current) dark then
    let dim := contrastRatio_dark / Pref.minContrast_dark pref - 1 in
    Some (Corrected.mk (rgba (dimColour colour dim)) dark)
  else None.

(** ** Setting the frame colour *)

(** The calls [setFrameColour] makes, in order; the colour handed to
    [applyTheme] is [None] when it is [undefined]. *)
Inductive Call :=
| call_contrastCorrection (colour : Colour.t)
| call_applyTheme (windowId : Z) (colour : option Colour.t) (colourScheme : Scheme).

Record Trace := Traced { calls : list Call; thrown : option JsError }.

Definition setFrameColour `{ColourLibrary} (pref : Pref.t) (current : Current.t)
    (windowId : Z) (colour : FrameColour) : Trace :=
  match colour with
  | Code code =>
      match colourCode current code (Current.scheme current) with
      | Some c =>
          Traced [call_applyTheme windowId (Some c) (Current.scheme current)] None
      | None =>
          match colourCode current code (Current.reversedScheme current),
                Pref.allowDarkLight pref with
          | Some c, true =>
              Traced [call_applyTheme windowId (Some c) (Current.reversedScheme current)]
                     None
          | _, _ =>
              Traced [call_applyTheme windowId
                        (colourCode current FALLBACK (Current.scheme current))
                        (Current.scheme current)]
                     None
          end
      end
  | Literal colour =>
      match contrastCorrection pref current colour with
      | Some correctionResult =>
          Traced [call_contrastCorrection colour;
                  call_applyTheme windowId (Some (Corrected.colour correctionResult))
                                  (Corrected.scheme correctionResult)]
                 None
      | None => Traced [call_contrastCorrection colour] (Some TypeError)
      end
  end.

(** ** Themes *)

(** A colour of a theme: the text [dimColour] returns, represented by the
    colour it denotes, or a fixed CSS text. *)
Inductive ThemeColour :=
| Dimmed (c : Colour.t)
| Css (text : string).

Module Colors.
Record t := mk {
  frame : ThemeColour;
  frame_inactive : ThemeColour;
  tab_selected : ThemeColour;
  ntp_background : ThemeColour;
  toolbar : ThemeColour;
  toolbar_top_separator : ThemeColour;
  toolbar_bottom_separator : ThemeColour;
  toolbar_field : ThemeColour;
  toolbar_field_border : ThemeColour;
  toolbar_field_focus : ThemeColour;
  toolbar_field_border_focus : ThemeColour;
  sidebar : ThemeColour;
  sidebar_border : ThemeColour;
  popup : ThemeColour;
  popup_border : ThemeColour;
  tab_background_text : ThemeColour;
  tab_loading : ThemeColour;
  tab_line : ThemeColour;
  ntp_text : ThemeColour;
  toolbar_text : ThemeColour;
  toolbar_field_text : ThemeColour;
  popup_text : ThemeColour;
  sidebar_text : ThemeColour;
  button_background_hover : ThemeColour;
  button_background_active : ThemeColour;
  icons : ThemeColour
}.
End Colors.

Module Properties.
Record t := mk { color_scheme : string; content_color_scheme : string }.
End Properties.

Module Theme.
Record t := mk { colors : Colors.t; properties : Properties.t }.
End Theme.

(** The theme [applyTheme] builds when [colourScheme === "light"]. *)
Definition theme_light `{ColourLibrary} (pref : Pref.t) (colour : Colour.t) : Theme.t :=
  Theme.mk
    {| Colors.frame := Dimmed (dimColour colour (- Pref.tabbar pref * 1.5));
       Colors.frame_inactive := Dimmed (dimColour colour (- Pref.tabbar pref * 1.5));
       Colors.tab_selected := Dimmed (dimColour colour (- Pref.tabSelected pref * 1.5));
       Colors.ntp_background := Dimmed (dimColour colour 0);
       Colors.toolbar := Dimmed (dimColour colour (- Pref.toolbar pref * 1.5));
       Colors.toolbar_top_separator := Css "rgba(0, 0, 0, 0)";
       Colors.toolbar_bottom_separator :=
         Dimmed (dimColour colour ((- Pref.toolbarBorder pref - Pref.toolbar pref) * 1.5));
       Colors.toolbar_field := Dimmed (dimColour colour (- Pref.toolbarField pref * 1.5));
       Colors.toolbar_field_border := Css "rgba(0, 0, 0, 0)";
       Colors.toolbar_field_focus :=
         Dimmed (dimColour colour (- Pref.toolbarFieldOnFocus pref * 1.5));
       Colors.toolbar_field_border_focus := Css "rgb(130, 180, 245)";
       Colors.sidebar := Dimmed (dimColour colour (- Pref.sidebar pref * 1.5));
       Colors.sidebar_border :=
         Dimmed (dimColour colour ((- Pref.sidebar pref - Pref.sidebarBorder pref) * 1.5));
       Colors.popup := Dimmed (dimColour colour (- Pref.popup pref * 1.5));
       Colors.popup_border :=
         Dimmed (dimColour colour ((- Pref.popup pref - Pref.popupBorder pref) * 1.5));
       Colors.tab_background_text := Css "rgb(30, 30, 30)";
       Colors.tab_loading := Css "rgba(0, 0, 0, 0)";
       Colors.tab_line := Css "rgba(0, 0, 0, 0)";
       Colors.ntp_text := Css "rgb(0, 0, 0)";
       Colors.toolbar_text := Css "rgb(0, 0, 0)";
       Colors.toolbar_field_text := Css "rgba(0, 0, 0)";
       Colors.popup_text := Css "rgb(0, 0, 0)";
       Colors.sidebar_text := Css "rgb(0, 0, 0)";
       Colors.button_background_hover := Css "rgba(0, 0, 0, 0.10)";
       Colors.button_background_active := Css "rgba(0, 0, 0, 0.15)";
       Colors.icons := Css "rgb(30, 30, 30)" |}
    {| Properties.color_scheme := "system";
       Properties.content_color_scheme := "system" |}.

(** The theme [applyTheme] builds when [colourScheme === "dark"]. *)
Definition theme_dark `{ColourLibrary} (pref : Pref.t) (colour : Colour.t) : Theme.t :=
  Theme.mk
    {| Colors.frame := Dimmed (dimColour colour (Pref.tabbar pref));
       Colors.frame_inactive := Dimmed (dimColour colour (Pref.tabbar pref));
       Colors.tab_selected := Dimmed (dimColour colour (Pref.tabSelected pref));
       Colors.ntp_background := Dimmed (dimColour colour 0);
       Colors.toolbar := Dimmed (dimColour colour (Pref.toolbar pref));
       Colors.toolbar_top_separator := Css "rgba(0, 0, 0, 0)";
       Colors.toolbar_bottom_separator :=
         Dimmed (dimColour colour (Pref.toolbarBorder pref + Pref.toolbar pref));
       Colors.toolbar_field := Dimmed (dimColour colour (Pref.toolbarField pref));
       Colors.toolbar_field_border :=
         Dimmed (dimColour colour (Pref.toolbarFieldBorder pref));
       Colors.toolbar_field_focus :=
         Dimmed (dimColour colour (Pref.toolbarFieldOnFocus pref));
       Colors.toolbar_field_border_focus := Css "rgb(70, 118, 160)";
       Colors.sidebar := Dimmed (dimColour colour (Pref.sidebar pref));
       Colors.sidebar_border :=
         Dimmed (dimColour colour (Pref.sidebar pref + Pref.sidebarBorder pref));
       Colors.popup := Dimmed (dimColour colour (Pref.popup pref));
       Colors.popup_border :=
         Dimmed (dimColour colour (Pref.popup pref + Pref.popupBorder pref));
       Colors.tab_background_text := Css "rgb(225, 225, 225)";
       Colors.tab_loading := Css "rgba(0, 0, 0, 0)";
       Colors.tab_line := Css "rgba(0, 0, 0, 0)";
       Colors.ntp_text := Css "rgb(255, 255, 255)";
       Colors.toolbar_text := Css "rgb(255, 255, 255)";
       Colors.toolbar_field_text := Css "rgb(255, 255, 255)";
       Colors.popup_text := Css "rgb(225, 225, 225)";
       Colors.sidebar_text := Css "rgb(225, 225, 225)";
       Colors.button_background_hover := Css "rgba(255, 255, 255, 0.10)";
       Colors.button_background_active := Css "rgba(255, 255, 255, 0.15)";
       Colors.icons := Css "rgb(225, 225, 225)" |}
    {| Properties.color_scheme := "system";
       Properties.content_color_scheme := "system" |}.

(** [browser.theme.update(windowId, theme)] *)
Inductive Effect := theme_update (windowId : Z) (theme : Theme.t).

(** Constructs a theme and applies it to a given window. *)
Definition applyTheme `{ColourLibrary} (pref : Pref.t) (windowId : Z) (colour : Colour.t)
    (colourScheme : Scheme) : list Effect :=
  (if Scheme_eqb colourScheme light
   then [theme_update windowId (theme_light pref colour)] else []) ++
  (if Scheme_eqb colourScheme dark
   then [theme_update windowId (theme_dark pref colour)] else []).

(** ** Messages *)

Module Message.
Record t := mk { reason : option string; response : option Response.t }.
End Message.

(** What [handleMessage] sets off: one of the script's update routines, a
    call of [setFrameColour], the rejection of the promise of an [async]
    action (nothing else happens), an exception of the handler itself, or
    a call, which returns, of a member that [actions] inherits from
    [Object.prototype]. *)
Inductive Dispatch :=
| run_initialise
| run_prefUpdate
| run_update
| run_setFrameColour (windowId : Z) (colour : FrameColour)
| rejected (e : JsError)
| throws (e : JsError)
| inherited (name : string).

(** The property names [Object.prototype] hands down to an object literal. *)
Definition Object_prototype : list string :=
  [ "constructor"; "__defineGetter__"; "__defineSetter__"; "hasOwnProperty";
    "__lookupGetter__"; "__lookupSetter__"; "isPrototypeOf"; "propertyIsEnumerable";
    "toString"; "valueOf"; "__proto__"; "toLocaleString" ].

Definition String_mem (x : string) (l : list string) : bool := existsb (String.eqb x) l.

(** The inherited members whose call without arguments throws a
    [TypeError]: [__proto__] is no function, and [__defineGetter__] and
    [__defineSetter__] reject an [undefined] accessor.  The other members
    return. *)
Definition Object_prototype_throwing : list string :=
  [ "__proto__"; "__defineGetter__"; "__defineSetter__" ].

(** The property key of [message?.reason]. *)
Definition reason_key (message : option Message.t) : string :=
  match message with
  | Some m =>
      match Message.reason m with
      | Some reason => reason
      | None => "undefined"
      end
  | None => "undefined"
  end.

(** The entries of [actions], run. *)
Definition actions (browser : Browser.t) (pref : Pref.t) (message : option Message.t)
    (tab : Tab.t) (key : string) : option Dispatch :=
  if String.eqb key "INIT_REQUEST" then Some run_initialise
  else if String.eqb key "UPDATE_REQUEST" then Some run_prefUpdate
  else if String.eqb key "SCRIPT_LOADED" then
    Some match getWebPageColour browser pref None with
         | Ok colour => run_setFrameColour (Tab.windowId tab) colour
         | Throw e => rejected e
         end
  else if String.eqb key "COLOUR_UPDATE" then
    Some match message with
         | Some m =>
             match Message.response m with
             | Some response => run_setFrameColour (Tab.windowId tab) (Response.colour response)
             | None => throws TypeError
             end
         | None => throws TypeError
         end
  else if String_mem key Object_prototype then
    Some (if String_mem key Object_prototype_throwing then throws TypeError
          else inherited key)
  else None.

(** Handles incoming messages based on their [reason] codes; [tab] is
    [sender.tab]. *)
Definition handleMessage (browser : Browser.t) (pref : Pref.t)
    (message : option Message.t) (tab : option Tab.t) : Dispatch :=
  match tab with
  | Some tab =>
      if Tab.active tab then
        match actions browser pref message tab (reason_key message) with
        | Some action => action
        | None => run_update
        end
      else run_update
  | None => run_update
  end.

(** ** The colour library of the specification *)

(** Modelled from the spec: [linear] of [./colour.js] is not among the
    sources.  The transfer function of "the standard
    relative-luminance-based ratio formula" (WCAG), on a channel in
    0..255. *)
Definition linear (channel : R) : R :=
  let c := channel / 255 in
  if Rle_dec c 0.03928 then c / 12.92 else Rpower ((c + 0.055) / 1.055) 2.4.

(** Modelled from the spec: [relativeLuminance] of [./colour.js] is not
    among the sources.  The WCAG relative luminance, on the 0..255 scale
    of the section 4.3 formula, which divides by [255 - luminance(color)]. *)
Definition spec_relativeLuminance (c : Colour.t) : R :=
  255 * (0.2126 * linear (Colour.r c) + 0.7152 * linear (Colour.g c) +
         0.0722 * linear (Colour.b c)).

(** Modelled from the spec: [contrastRatio] of [./colour.js] is not among
    the sources.  The WCAG contrast ratio [(L1 + 0.05) / (L2 + 0.05)] of
    the lighter to the darker colour, with luminances on the 0..255
    scale. *)
Definition spec_contrastRatio (c1 c2 : Colour.t) : R :=
  let l1 := spec_relativeLuminance c1 in
  let l2 := spec_relativeLuminance c2 in
  (Rmax l1 l2 + 12.75) / (Rmin l1 l2 + 12.75).

(** Modelled from the spec: [dimColour] of [./colour.js] is not among the
    sources.  The "linear dimming transform" by a signed magnitude: a
    positive [dim] moves each channel linearly towards white, a negative
    one towards black, and zero leaves the colour as it is. *)
Definition spec_dimColour (c : Colour.t) (dim : R) : Colour.t :=
  if Rlt_dec 0 dim then
    RGBA (dim * 255 + (1 - dim) * Colour.r c)
         (dim * 255 + (1 - dim) * Colour.g c)
         (dim * 255 + (1 - dim) * Colour.b c)
         (Colour.a c)
  else if Rlt_dec dim 0 then
    RGBA ((dim + 1) * Colour.r c) ((dim + 1) * Colour.g c) ((dim + 1) * Colour.b c)
         (Colour.a c)
  else c.

(** Modelled from the spec: the module [./colour.js] is not among the
    sources; its operations are those above. *)
Definition spec_colour_library : ColourLibrary :=
  {| relativeLuminance := spec_relativeLuminance;
     contrastRatio := spec_contrastRatio;
     dimColour := spec_dimColour |}.

(** ** The properties, as the specification words them *)

(** The foreground reference of a scheme: pure black for the light scheme,
    pure white for the dark one. *)
Definition foreground (s : Scheme) : Colour.t :=
  match s with
  | light => RGBA 0 0 0 1
  | dark => RGBA 255 255 255 1
  end.

(** The configured minimum contrast of a scheme. *)
Definition minContrast (pref : Pref.t) (s : Scheme) : R :=
  match s with
  | light => Pref.minContrast_light pref
  | dark => Pref.minContrast_dark pref
  end.

Definition in_range (c : Colour.t) : Prop :=
  0 <= Colour.r c <= 255 /\ 0 <= Colour.g c <= 255 /\ 0 <= Colour.b c <= 255 /\
  0 <= Colour.a c <= 1.

(** A corrected colour meets the minimum of its scheme. *)
Definition meets_minimum `{ColourLibrary} (pref : Pref.t) (result : Corrected.t) : Prop :=
  minContrast pref (Corrected.scheme result) <=
  contrastRatio (Corrected.colour result) (foreground (Corrected.scheme result)).

(** The minimum of a scheme exceeds the ratio of every colour. *)
Definition minimum_unreachable `{ColourLibrary} (pref : Pref.t) (s : Scheme) : Prop :=
  forall c, in_range c -> contrastRatio c (foreground s) < minContrast pref s.

(** The dimming factor of the corrector for a colour that no permitted
    scheme takes as it is. *)
Definition correction_dim `{ColourLibrary} (pref : Pref.t) (s : Scheme) (colour : Colour.t)
    : R :=
  match s with
  | light =>
      ((Pref.minContrast_light pref / contrastRatio colour (RGBA 0 0 0 1) - 1) *
       relativeLuminance colour) / (255 - relativeLuminance colour)
  | dark => contrastRatio colour (RGBA 255 255 255 1) / Pref.minContrast_dark pref - 1
  end.

(** A scheme the corrector may answer with: the current one, or the other
    one when "allow opposite scheme" is set. *)
Definition permitted (pref : Pref.t) (current : Current.t) (s : Scheme) : Prop :=
  s = Current.scheme current \/ Pref.allowDarkLight pref = true.

(** The fallback colour of a scheme. *)
Definition fallbackColour (current : Current.t) (s : Scheme) : Colour.t :=
  match s with
  | light => Current.fallbackColour_light current
  | dark => Current.fallbackColour_dark current
  end.

Definition is_contrastCorrection (c : Call) : bool :=
  match c with
  | call_contrastCorrection _ => true
  | call_applyTheme _ _ _ => false
  end.

(** A character that stands for itself in a pattern. *)
Definition ordinary (c : ascii) : bool :=
  negb (RegExp.outside_fragment c) &&
  match RegExp.quantifier_of c with
  | Some _ => false
  | None => negb (Ascii.eqb c "$") && negb (Ascii.eqb c ".")
  end.

(** The terms of a text of ordinary characters. *)
Definition literal (text : list ascii) : list RegExp.term :=
  map (fun c => RegExp.Atom (RegExp.Char c) RegExp.Once) text.

(** The custom rule of a site: the value of the first entry whose key is
    the URL or its hostname, [None] when no entry matches. *)
Definition spec_customRule (browser : Browser.t) (url : string)
    (rules : list (string * CustomRule)) : option CustomRule :=
  let matches (site : string) :=
    String.eqb url site ||
    match Browser.URL_hostname browser url with
    | Ok hostname => String.eqb hostname site
    | Throw _ => false
    end in
  option_map snd (find (fun entry => matches (fst entry)) rules).

(** The surfaces of the palette that the specification derives from the
    base colour. *)
Inductive Surface :=
| s_frame | s_frame_inactive | s_tab_selected | s_toolbar | s_toolbar_bottom_separator
| s_toolbar_field | s_toolbar_field_border | s_toolbar_field_focus
| s_sidebar | s_sidebar_border | s_popup | s_popup_border.

Definition surface (colors : Colors.t) (s : Surface) : ThemeColour :=
  match s with
  | s_frame => Colors.frame colors
  | s_frame_inactive => Colors.frame_inactive colors
  | s_tab_selected => Colors.tab_selected colors
  | s_toolbar => Colors.toolbar colors
  | s_toolbar_bottom_separator => Colors.toolbar_bottom_separator colors
  | s_toolbar_field => Colors.toolbar_field colors
  | s_toolbar_field_border => Colors.toolbar_field_border colors
  | s_toolbar_field_focus => Colors.toolbar_field_focus colors
  | s_sidebar => Colors.sidebar colors
  | s_sidebar_border => Colors.sidebar_border colors
  | s_popup => Colors.popup colors
  | s_popup_border => Colors.popup_border colors
  end.

(** The coefficient of a surface; a border variant adds its own
    coefficient to that of its base. *)
Definition spec_coefficient (pref : Pref.t) (s : Surface) : R :=
  match s with
  | s_frame | s_frame_inactive => Pref.tabbar pref
  | s_tab_selected => Pref.tabSelected pref
  | s_toolbar => Pref.toolbar pref
  | s_toolbar_bottom_separator => Pref.toolbarBorder pref + Pref.toolbar pref
  | s_toolbar_field => Pref.toolbarField pref
  | s_toolbar_field_border => Pref.toolbarFieldBorder pref
  | s_toolbar_field_focus => Pref.toolbarFieldOnFocus pref
  | s_sidebar => Pref.sidebar pref
  | s_sidebar_border => Pref.sidebarBorder pref + Pref.sidebar pref
  | s_popup => Pref.popup pref
  | s_popup_border => Pref.popupBorder pref + Pref.popup pref
  end.

(** The theme handed to [browser.theme.update] for a scheme. *)
Definition theme_of `{ColourLibrary} (pref : Pref.t) (colour : Colour.t) (s : Scheme)
    : Theme.t :=
  match s with
  | light => theme_light pref colour
  | dark => theme_dark pref colour
  end.

(** ** Sample data *)

Definition black : Colour.t := RGBA 0 0 0 1.
Definition white : Colour.t := RGBA 255 255 255 1.

(** Preferences with both minimum contrasts at 4.5 and the given "allow
    opposite scheme" and custom rules. *)
Definition sample_pref (allow : bool) (rules : list (string * CustomRule)) : Pref.t :=
  {| Pref.tabbar := 0; Pref.tabSelected := 0.1; Pref.toolbar := 0;
     Pref.toolbarBorder := 0; Pref.toolbarField := 0.05;
     Pref.toolbarFieldBorder := 0.1; Pref.toolbarFieldOnFocus := 0.05;
     Pref.sidebar := 0.05; Pref.sidebarBorder := 0.05;
     Pref.popup := 0.05; Pref.popupBorder := 0.05;
     Pref.minContrast_light := 4.5; Pref.minContrast_dark := 4.5;
     Pref.allowDarkLight := allow; Pref.dynamic := true;
     Pref.noThemeColour := true; Pref.customRule := rules |}.

Definition sample_current (s : Scheme) : Current.t :=
  {| Current.scheme := s;
     Current.homeBackground_light := RGBA 255 255 255 1;
     Current.homeBackground_dark := RGBA 43 42 51 1;
     Current.fallbackColour_light := RGBA 255 255 255 1;
     Current.fallbackColour_dark := RGBA 43 42 51 1 |}.

(** The URLs of the examples, with their hostnames. *)
Definition sample_urls : list (string * string) :=
  [ ("https://example.com/", "example.com");
    ("https://example.com/notes.txt?raw=1", "example.com");
    ("https://example.org/view?src=http://readme", "example.org");
    ("https://example.org/cpp", "example.org") ].

(** A browser whose URL parser knows the URLs of the examples, and whose
    pages do not respond. *)
Definition sample_browser : Browser.t :=
  {| Browser.URL_hostname := fun url =>
       match find (fun known => String.eqb url (fst known)) sample_urls with
       | Some known => Ok (snd known)
       | None => Throw TypeError
       end;
     Browser.tabs_sendMessage := fun _ _ => Ok None;
     Browser.RegExp_outside := fun _ _ => Ok false |}.

Definition sample_tab (url title : string) : Tab.t :=
  {| Tab.id := 7; Tab.windowId := 1; Tab.active := true; Tab.url := url;
     Tab.title := title; Tab.favIconUrl := None |}.

(** An about-page table with a dark-only entry and an entry for both
    schemes. *)
Definition sample_aboutPageColour : PageTable := fun pathname =>
  if String.eqb pathname "privatebrowsing" then
    Some (per_scheme None (Some (RGBA 37 0 62 1)))
  else if String.eqb pathname "logo" then
    Some (per_scheme (Some (RGBA 255 255 255 1)) (Some (RGBA 50 50 50 1)))
  else None.


(** * The rest of the background script *)

(** ** Resolving the scheme *)

(** [value] is the "website appearance" setting the browser reports,
    [darkModeDetection] the [matches] member of the media query
    [(prefers-color-scheme: dark)], [None] when there is no query
    object. *)
Definition getCurrentScheme (value : string) (darkModeDetection : option bool) : Scheme :=
  if String.eqb value "light" then light
  else if String.eqb value "dark" then dark
  else match darkModeDetection with
       | Some true => dark
       | _ => light
       end.

(** The members of [pref] that [current.update] reads besides
    [customRule]. *)
Module Stored.
Record t := mk {
  custom : bool;
  homeBackground_light : Colour.t;
  homeBackground_dark : Colour.t;
  fallbackColour_light : Colour.t;
  fallbackColour_dark : Colour.t
}.
End Stored.

(** The colour constants of [./default_values.js]. *)
Module Defaults.
Record t := mk {
  default_homeBackground_light : Colour.t;
  default_homeBackground_dark : Colour.t;
  default_fallbackColour_light : Colour.t;
  default_fallbackColour_dark : Colour.t
}.
End Defaults.

(** [current] after [current.update()]: its scheme and colours, and its
    [customRule] member. *)
Module Updated.
Record t := mk {
  current : Current.t;
  customRule : list (string * CustomRule)
}.
End Updated.

Definition current_update (defaults : Defaults.t) (stored : Stored.t) (pref : Pref.t)
    (value : string) (darkModeDetection : option bool) : Updated.t :=
  if Stored.custom stored then
    Updated.mk
      (Current.mk (getCurrentScheme value darkModeDetection)
         (rgba (Stored.homeBackground_light stored))
         (rgba (Stored.homeBackground_dark stored))
         (rgba (Stored.fallbackColour_light stored))
         (rgba (Stored.fallbackColour_dark stored)))
      (Pref.customRule pref)
  else
    Updated.mk
      (Current.mk (getCurrentScheme value darkModeDetection)
         (rgba (Defaults.default_homeBackground_light defaults))
         (rgba (Defaults.default_homeBackground_dark defaults))
         (rgba (Defaults.default_fallbackColour_light defaults))
         (rgba (Defaults.default_fallbackColour_dark defaults)))
      [].

(** ** Add-on pages *)

(** [text.split(/\/|\?/)]: the pieces of a text between its slashes and
    question marks. *)
Definition separator (c : ascii) : bool := Ascii.eqb c "/" || Ascii.eqb c "?".

Fixpoint split_chars (s : list ascii) : list (list ascii) :=
  match s with
  | [] => [[]]
  | c :: s' =>
      if separator c then [] :: split_chars s'
      else match split_chars s' with
           | piece :: pieces => (c :: piece) :: pieces
           | [] => [[c]]
           end
  end.

Definition String_split (text : string) : list string :=
  map string_of_list_ascii (split_chars (list_ascii_of_string text)).

(** [x === y] on values that are a text or [undefined]. *)
Definition strict_equal (x y : option string) : bool :=
  match x, y with
  | Some x, Some y => String.eqb x y
  | None, None => true
  | _, _ => false
  end.

(** The members of [management.ExtensionInfo] that are read. *)
Module Addon.
Record t := mk {
  id : string;
  type : string;
  hostPermissions : option (list string)
}.
End Addon.

(** [object[key]] for an own key of a map. *)
Fixpoint property (key : string) (object : list (string * CustomRule)) : option CustomRule :=
  match object with
  | [] => None
  | (k, v) :: rest => if String.eqb key k then Some v else property key rest
  end.

(** [for (const host of addon.hostPermissions) ...]; [Some] is the value
    returned from inside the loop. *)
Fixpoint hostPermissions_loop (pref : Pref.t) (uuid : option string) (addon : Addon.t)
    (hosts : list string) : option CustomRule :=
  match hosts with
  | [] => None
  | host :: rest =>
      if startsWith host "moz-extension:" &&
         strict_equal uuid (nth_error (String_split host) 2) then
        match property ("Add-on ID: " ++ Addon.id addon) (Pref.customRule pref) with
        | Some rule => Some rule
        | None => hostPermissions_loop pref uuid addon rest
        end
      else hostPermissions_loop pref uuid addon rest
  end.

(** [for (const addon of addonList) ...] *)
Fixpoint addonList_loop (pref : Pref.t) (uuid : option string) (addonList : list Addon.t)
    : option CustomRule :=
  match addonList with
  | [] => None
  | addon :: rest =>
      if String.eqb (Addon.type addon) "extension" then
        match Addon.hostPermissions addon with
        | Some hosts =>
            match hostPermissions_loop pref uuid addon hosts with
            | Some rule => Some rule
            | None => addonList_loop pref uuid rest
            end
        | None => addonList_loop pref uuid rest
        end
      else addonList_loop pref uuid rest
  end.

(** [addonList] is what [browser.management.getAll()] resolves to. *)
Definition getAddonPageColour (addonList : list Addon.t) (pref : Pref.t) (url : string)
    : string :=
  let uuid := nth_error (String_split url) 2 in
  match addonList_loop pref uuid addonList with
  | Some rule => rule
  | None => "ADDON"
  end.

(** ** Updating a tab *)

(** The members of a [URL] object that are read. *)
Module URL.
Record t := mk {
  href : string;
  protocol : string;
  hostname : string;
  pathname : string
}.
End URL.

(** The colour handed to [setFrameColour]: a frame colour, or the text
    [getAddonPageColour] returns. *)
Inductive FrameArgument :=
| frame_colour (colour : FrameColour)
| frame_text (colour : string).

(** [key in table] *)
Definition has_key (table : PageTable) (key : string) : bool :=
  match table key with
  | Some _ => true
  | None => false
  end.

(** The call [setFrameColour(windowId, colour)] that [updateTab] ends in:
    its window and its colour.  [URL_new] is [new URL(text)] and
    [management_getAll] what [browser.management.getAll()] settles to. *)
Definition updateTab (URL_new : string -> Exc URL.t) (browser : Browser.t)
    (management_getAll : Exc (list Addon.t))
    (default_aboutPageColour default_protectedPageColour : PageTable)
    (pref : Pref.t) (current : Current.t) (tab : Tab.t) : Exc (Z * FrameArgument) :=
  url <- URL_new (Tab.url tab) ;;
  let windowId := Tab.windowId tab in
  if String.eqb (URL.protocol url) "view-source:" then
    Ok (windowId, frame_colour (Code PLAINTEXT))
  else if String.eqb (URL.protocol url) "chrome:" ||
          String.eqb (URL.protocol url) "resource:" ||
          String.eqb (URL.protocol url) "jar:file:" then
    if endsWith (URL.href url) ".txt" || endsWith (URL.href url) ".css" ||
       endsWith (URL.href url) ".jsm" || endsWith (URL.href url) ".js" then
      Ok (windowId, frame_colour (Code PLAINTEXT))
    else if endsWith (URL.href url) ".png" || endsWith (URL.href url) ".jpg" then
      Ok (windowId, frame_colour (Code IMAGEVIEWER))
    else Ok (windowId, frame_colour (Code SYSTEM))
  else if String.eqb (URL.protocol url) "about:" then
    Ok (windowId,
        frame_colour (getAboutPageColour default_aboutPageColour pref current
                        (URL.pathname url)))
  else if has_key default_protectedPageColour (URL.hostname url) then
    Ok (windowId,
        frame_colour (getProtectedPageColour default_protectedPageColour pref current
                        (URL.hostname url)))
  else if String.eqb (URL.protocol url) "moz-extension:" then
    addonList <- management_getAll ;;
    Ok (windowId, frame_text (getAddonPageColour addonList pref (URL.href url)))
  else
    colour <- getWebPageColour browser pref (Some tab) ;;
    Ok (windowId, frame_colour colour).

(** The pages whose address alone shows that [updateTab] classifies them
    by itself: the protocol is one a URL can have, or the host is in the
    table of protected sites. *)
Definition browser_or_protected_page (default_protectedPageColour : PageTable)
    (url : URL.t) : Prop :=
  URL.protocol url = "view-source:" \/ URL.protocol url = "chrome:" \/
  URL.protocol url = "resource:" \/ URL.protocol url = "about:" \/
  has_key default_protectedPageColour (URL.hostname url) = true.

(** The pages that [updateTab] classifies by itself. *)
Definition classified_locally (default_protectedPageColour : PageTable) (url : URL.t)
    : Prop :=
  URL.protocol url = "view-source:" \/ URL.protocol url = "chrome:" \/
  URL.protocol url = "resource:" \/ URL.protocol url = "jar:file:" \/
  URL.protocol url = "about:" \/
  has_key default_protectedPageColour (URL.hostname url) = true.

(** ** Texts as frame colours *)





(** ** What a call of [setFrameColour] does to the browser *)



(** ** More sample data *)

Definition sample_defaults : Defaults.t :=
  Defaults.mk (RGBA 255 255 255 1) (RGBA 43 42 51 1) (RGBA 255 255 255 1) (RGBA 28 27 34 1).

Definition sample_stored (custom : bool) : Stored.t :=
  Stored.mk custom (RGBA 250 240 230 1) (RGBA 20 20 40 1) (RGBA 240 240 240 1)
    (RGBA 40 40 40 1).

(** An extension with its own origin among its host permissions, and a
    theme. *)
Definition sample_addons : list Addon.t :=
  [ Addon.mk "theme@example.org" "theme" None;
    Addon.mk "reader@example.org" "extension"
      (Some ["https://*.example.org/*"; "moz-extension://1234-abcd/*"]) ].

(** A protected-site table with one entry, for the light scheme only. *)
Definition sample_protectedPageColour : PageTable := fun hostname =>
  if String.eqb hostname "addons.mozilla.org" then
    Some (per_scheme (Some (RGBA 236 236 236 1)) None)
  else None.

(** A URL parser that knows the URLs of the examples. *)
Definition sample_URL : string -> Exc URL.t := fun text =>
  if String.eqb text "view-source:https://example.com/" then
    Ok (URL.mk text "view-source:" "" "https://example.com/")
  else if String.eqb text "about:privatebrowsing" then
    Ok (URL.mk text "about:" "" "privatebrowsing")
  else if String.eqb text "https://addons.mozilla.org/en-US/firefox/" then
    Ok (URL.mk text "https:" "addons.mozilla.org" "/en-US/firefox/")
  else if String.eqb text "moz-extension://1234-abcd/options.html" then
    Ok (URL.mk text "moz-extension:" "1234-abcd" "/options.html")
  else if String.eqb text "https://example.com/" then
    Ok (URL.mk text "https:" "example.com" "/")
  else Throw TypeError.
(** * Properties *)

(** ** Comparisons *)

Lemma gt_true x y : gt x y = true <-> y < x.
Proof.
  unfold gt. destruct (Rlt_dec y x); split; intros; try assumption;
    try reflexivity; try discriminate; contradiction.
Qed.

Lemma gt_false x y : gt x y = false <-> x <= y.
Proof.
  unfold gt. destruct (Rlt_dec y x); split; intros; try reflexivity;
    try discriminate; lra.
Qed.

Lemma Scheme_eqb_eq x y : Scheme_eqb x y = true <-> x = y.
Proof. destruct x, y; simpl; split; congruence. Qed.

(** ** The colour library of the specification at black and white *)

Lemma linear_0 : linear 0 = 0.
Proof.
  unfold linear. cbv zeta.
  destruct (Rle_dec (0 / 255) 0.03928) as [_ | n]; lra.
Qed.

Lemma linear_255 : linear 255 = 1.
Proof.
  unfold linear. cbv zeta.
  destruct (Rle_dec (255 / 255) 0.03928) as [l | _]; [lra |].
  replace ((255 / 255 + 0.055) / 1.055) with 1 by lra.
  unfold Rpower. rewrite ln_1, Rmult_0_r. apply exp_0.
Qed.

Lemma luminance_black : spec_relativeLuminance black = 0.
Proof. unfold spec_relativeLuminance, black. simpl. rewrite linear_0. lra. Qed.

Lemma luminance_white : spec_relativeLuminance white = 255.
Proof. unfold spec_relativeLuminance, white. simpl. rewrite linear_255. lra. Qed.

Lemma contrast_black_black : spec_contrastRatio black black = 1.
Proof.
  unfold spec_contrastRatio. cbv zeta. rewrite luminance_black.
  rewrite Rmax_left, Rmin_left by lra. lra.
Qed.

Lemma contrast_black_white : spec_contrastRatio black white = 21.
Proof.
  unfold spec_contrastRatio. cbv zeta. rewrite luminance_black, luminance_white.
  rewrite Rmax_right, Rmin_left by lra. lra.
Qed.

Lemma contrast_white_black : spec_contrastRatio white black = 21.
Proof.
  unfold spec_contrastRatio. cbv zeta. rewrite luminance_black, luminance_white.
  rewrite Rmax_left, Rmin_right by lra. lra.
Qed.

Lemma dimColour_0 c : spec_dimColour c 0 = c.
Proof.
  unfold spec_dimColour.
  destruct (Rlt_dec 0 0); [lra |]. destruct (Rlt_dec 0 0); [lra | reflexivity].
Qed.

Lemma dimColour_negative c dim :
  dim < 0 ->
  spec_dimColour c dim
  = RGBA ((dim + 1) * Colour.r c) ((dim + 1) * Colour.g c) ((dim + 1) * Colour.b c)
         (Colour.a c).
Proof.
  intros Hdim. unfold spec_dimColour.
  destruct (Rlt_dec 0 dim); [lra |]. destruct (Rlt_dec dim 0); [reflexivity | lra].
Qed.

Lemma in_range_black : in_range black.
Proof. unfold in_range, black; simpl; lra. Qed.

Lemma in_range_white : in_range white.
Proof. unfold in_range, white; simpl; lra. Qed.

(** ** Contrast correction *)

(** In the light scheme without "allow opposite scheme", the corrector
    hands black back as it is. *)
Lemma contrastCorrection_black :
  @contrastCorrection spec_colour_library (sample_pref false []) (sample_current light) black
  = Some (Corrected.mk black light).
Proof.
  unfold contrastCorrection, rgba; simpl.
  fold black white.
  rewrite contrast_black_black, contrast_black_white, luminance_black.
  replace (gt 1 4.5) with false by (symmetry; apply gt_false; lra).
  replace (gt 21 4.5) with true by (symmetry; apply gt_true; lra).
  simpl.
  replace ((4.5 / 1 - 1) * 0 / (255 - 0)) with 0 by lra.
  rewrite dimColour_0. reflexivity.
Qed.

(** A colour of luminance zero that the light scheme does not take as it
    is, with "allow opposite scheme" off: the dimming factor of the light
    scheme is zero, for every colour library. *)
Lemma contrastCorrection_zero_luminance `{ColourLibrary} pref current colour :
  Current.scheme current = light ->
  Pref.allowDarkLight pref = false ->
  relativeLuminance colour = 0 ->
  contrastRatio colour (RGBA 0 0 0 1) <= Pref.minContrast_light pref ->
  contrastCorrection pref current colour
  = Some (Corrected.mk (dimColour colour 0) light).
Proof.
  intros Hs Ha Hl He. unfold contrastCorrection, rgba. cbv zeta.
  rewrite Hs, Ha, Hl, (proj2 (gt_false _ _) He). simpl.
  rewrite andb_false_r.
  replace ((Pref.minContrast_light pref / contrastRatio colour (RGBA 0 0 0 1) - 1) * 0 /
           (255 - 0)) with 0 by lra.
  reflexivity.
Qed.

(** C1, on the failing input: black in the light scheme, with a minimum
    of 4.5 and "allow opposite scheme" off.  No divisor of the dimming
    factor is zero, the factor is zero, and the corrector returns black
    under the light scheme: the contrast ratio against the light scheme's
    foreground reference is 1, below the minimum, although the minimum is
    reachable (white has ratio 21). *)
Theorem contrastCorrection_black_misses_minimum :
  in_range black /\
  spec_contrastRatio black (RGBA 0 0 0 1) <> 0 /\
  255 - spec_relativeLuminance black <> 0 /\
  @contrastCorrection spec_colour_library (sample_pref false []) (sample_current light) black
  = Some (Corrected.mk black light) /\
  ~ @meets_minimum spec_colour_library (sample_pref false []) (Corrected.mk black light) /\
  ~ @minimum_unreachable spec_colour_library (sample_pref false []) light.
Proof.
  split; [exact in_range_black |].
  split; [fold black; rewrite contrast_black_black; lra |].
  split; [rewrite luminance_black; lra |].
  split; [exact contrastCorrection_black |]. split.
  - unfold meets_minimum; simpl. fold black. rewrite contrast_black_black. lra.
  - unfold minimum_unreachable; simpl. intros Hall.
    specialize (Hall white in_range_white). fold black in Hall.
    rewrite contrast_white_black in Hall. lra.
Qed.

(** The answers of the corrector, for every colour library.  When some
    permitted scheme takes the colour as it is (its contrast ratio against
    that scheme's foreground reference exceeds the scheme's minimum), the
    answer is the colour as it is under such a scheme.  When no permitted
    scheme does, the answer is the colour dimmed by the factor of the
    current scheme, under the current scheme. *)
Lemma contrastCorrection_cases `{ColourLibrary} (pref : Pref.t) (current : Current.t)
    (colour : Colour.t) :
  exists result,
    contrastCorrection pref current colour = Some result /\
    ((exists s,
        permitted pref current s /\
        minContrast pref s < contrastRatio colour (foreground s)) ->
     Corrected.colour result = colour /\
     permitted pref current (Corrected.scheme result) /\
     minContrast pref (Corrected.scheme result) <
       contrastRatio colour (foreground (Corrected.scheme result))) /\
    ((forall s,
        permitted pref current s ->
        contrastRatio colour (foreground s) <= minContrast pref s) ->
     Corrected.scheme result = Current.scheme current /\
     Corrected.colour result =
       dimColour colour (correction_dim pref (Current.scheme current) colour)).
Proof.
  unfold contrastCorrection, permitted, rgba. cbv zeta.
  destruct (gt (contrastRatio colour (RGBA 0 0 0 1)) (Pref.minContrast_light pref))
    eqn:El;
  destruct (gt (contrastRatio colour (RGBA 255 255 255 1)) (Pref.minContrast_dark pref))
    eqn:Ed;
  destruct (Current.scheme current) eqn:Es;
  destruct (Pref.allowDarkLight pref) eqn:Ea; simpl;
  eexists; (split; [reflexivity |]); simpl;
  try apply gt_true in El; try apply gt_true in Ed;
  try apply gt_false in El; try apply gt_false in Ed;
  (split;
   [ intros (s & Hperm & Hratio);
     first [ solve [repeat split; auto]
           | exfalso; destruct s; simpl in Hratio;
             destruct Hperm as [Hperm | Hperm]; first [discriminate | lra] ]
   | intros Hall;
     first [ solve [repeat split; auto]
           | exfalso;
             first [ specialize (Hall light); simpl in Hall;
                     assert (Hle : contrastRatio colour (RGBA 0 0 0 1)
                                   <= Pref.minContrast_light pref)
                       by (apply Hall; auto); lra
                   | specialize (Hall dark); simpl in Hall;
                     assert (Hle : contrastRatio colour (RGBA 255 255 255 1)
                                   <= Pref.minContrast_dark pref)
                       by (apply Hall; auto); lra ] ] ]).
Qed.

(** C9: the corrector is total.  A scheme is light or dark, so one of the
    four branches is taken for every colour and every preference, and the
    fall-through past the last [else if] is never reached. *)
Theorem contrastCorrection_total `{ColourLibrary} (pref : Pref.t) (current : Current.t)
    (colour : Colour.t) :
  (exists result, contrastCorrection pref current colour = Some result) /\
  contrastCorrection pref current colour <> None.
Proof.
  assert (Hsome : exists result, contrastCorrection pref current colour = Some result).
  { unfold contrastCorrection. cbv zeta.
    destruct (Current.scheme current); simpl.
    - destruct (gt _ _ && _); [eexists; reflexivity |].
      destruct (gt _ _ && _); eexists; reflexivity.
    - destruct (gt _ _ && _); [eexists; reflexivity |].
      destruct (gt _ _ && _); eexists; reflexivity. }
  split; [exact Hsome |].
  destruct Hsome as [result Hresult]. rewrite Hresult. discriminate.
Qed.

(** ** Setting the frame colour *)

Lemma colourCode_FALLBACK current s :
  colourCode current FALLBACK s = Some (fallbackColour current s).
Proof. destruct s; reflexivity. Qed.

(** The colour-code branch makes one call, of [applyTheme], on an entry of
    the lookup table. *)
Lemma setFrameColour_code `{ColourLibrary} pref current windowId code :
  exists code' s,
    setFrameColour pref current windowId (Code code)
    = Traced [call_applyTheme windowId (colourCode current code' s) s] None.
Proof.
  unfold setFrameColour.
  destruct (colourCode current code (Current.scheme current)) eqn:E1.
  - exists code, (Current.scheme current). rewrite E1. reflexivity.
  - destruct (colourCode current code (Current.reversedScheme current)) eqn:E2;
      [destruct (Pref.allowDarkLight pref) |].
    + exists code, (Current.reversedScheme current). rewrite E2. reflexivity.
    + exists FALLBACK, (Current.scheme current). reflexivity.
    + exists FALLBACK, (Current.scheme current). reflexivity.
Qed.

(** C5: for a colour code, [setFrameColour] never calls the corrector and
    hands [applyTheme] an entry of the lookup table; for a literal colour
    it calls the corrector first and hands [applyTheme] the corrector's
    colour and scheme. *)
Theorem setFrameColour_corrects_literals_only `{ColourLibrary} (pref : Pref.t)
    (current : Current.t) (windowId : Z) :
  (forall code,
     existsb is_contrastCorrection
       (calls (setFrameColour pref current windowId (Code code))) = false /\
     exists code' s,
       calls (setFrameColour pref current windowId (Code code))
       = [call_applyTheme windowId (colourCode current code' s) s]) /\
  (forall colour,
     exists result,
       contrastCorrection pref current colour = Some result /\
       setFrameColour pref current windowId (Literal colour)
       = Traced [call_contrastCorrection colour;
                 call_applyTheme windowId (Some (Corrected.colour result))
                                 (Corrected.scheme result)] None).
Proof.
  split.
  - intros code.
    destruct (setFrameColour_code pref current windowId code) as (code' & s & E).
    rewrite E. simpl. split; [reflexivity | exists code', s; reflexivity].
  - intros colour. unfold setFrameColour.
    destruct (contrastCorrection pref current colour) as [result |] eqn:E.
    + exists result. split; reflexivity.
    + exfalso. revert E. unfold contrastCorrection. cbv zeta.
      destruct (Current.scheme current); simpl;
        repeat (destruct (gt _ _ && _); [discriminate |]); discriminate.
Qed.

(** C10: for a colour code without a colour for the current scheme, the
    reversed scheme's colour is applied under the reversed scheme when it
    is defined and "allow opposite scheme" is set, and the fallback colour
    of the current scheme is applied under the current scheme
    otherwise. *)
Theorem setFrameColour_undefined_code `{ColourLibrary} (pref : Pref.t)
    (current : Current.t) (windowId : Z) (code : ColourCode) :
  colourCode current code (Current.scheme current) = None ->
  (forall c,
     colourCode current code (Current.reversedScheme current) = Some c ->
     Pref.allowDarkLight pref = true ->
     setFrameColour pref current windowId (Code code)
     = Traced [call_applyTheme windowId (Some c) (Current.reversedScheme current)] None) /\
  (colourCode current code (Current.reversedScheme current) = None \/
   Pref.allowDarkLight pref = false ->
   setFrameColour pref current windowId (Code code)
   = Traced [call_applyTheme windowId
               (Some (fallbackColour current (Current.scheme current)))
               (Current.scheme current)] None).
Proof.
  intros Hnone. unfold setFrameColour. rewrite Hnone. split.
  - intros c Hrev Hallow. rewrite Hrev, Hallow. reflexivity.
  - intros Hor. rewrite colourCode_FALLBACK.
    destruct Hor as [Hrev | Hallow].
    + rewrite Hrev. reflexivity.
    + rewrite Hallow.
      destruct (colourCode current code (Current.reversedScheme current)); reflexivity.
Qed.

(** The image viewer in the light scheme: its dark colour under the dark
    scheme when the opposite scheme is allowed, the light fallback colour
    under the light scheme when it is not. *)
Lemma setFrameColour_undefined_code_witness :
  @setFrameColour spec_colour_library (sample_pref true []) (sample_current light) 1
    (Code IMAGEVIEWER)
  = Traced [call_applyTheme 1 (Some (RGBA 33 33 33 1)) dark] None /\
  @setFrameColour spec_colour_library (sample_pref false []) (sample_current light) 1
    (Code IMAGEVIEWER)
  = Traced [call_applyTheme 1 (Some (RGBA 255 255 255 1)) light] None.
Proof.
  split.
  - apply (proj1 (@setFrameColour_undefined_code spec_colour_library
                    (sample_pref true []) (sample_current light) 1 IMAGEVIEWER eq_refl)
                 (RGBA 33 33 33 1) eq_refl eq_refl).
  - apply (proj2 (@setFrameColour_undefined_code spec_colour_library
                    (sample_pref false []) (sample_current light) 1 IMAGEVIEWER eq_refl)).
    right. reflexivity.
Defined.

(** ** The palette *)


(** C6, refuted as stated: in the light scheme the [toolbar_field_border]
    surface is the fixed transparent colour, whatever the base colour, and
    not the base dimmed by -1.5 times its coefficient (which for a white
    and a black base are different colours). *)
Lemma light_toolbar_field_border_is_fixed :
  surface (Theme.colors (@theme_of spec_colour_library (sample_pref false []) white light))
          s_toolbar_field_border
  = Css "rgba(0, 0, 0, 0)" /\
  surface (Theme.colors (@theme_of spec_colour_library (sample_pref false []) black light))
          s_toolbar_field_border
  = Css "rgba(0, 0, 0, 0)" /\
  surface (Theme.colors (@theme_of spec_colour_library (sample_pref false []) white light))
          s_toolbar_field_border
  <> Dimmed (@dimColour spec_colour_library white
               (- spec_coefficient (sample_pref false []) s_toolbar_field_border * 1.5)) /\
  @dimColour spec_colour_library white
    (- spec_coefficient (sample_pref false []) s_toolbar_field_border * 1.5)
  <> @dimColour spec_colour_library black
       (- spec_coefficient (sample_pref false []) s_toolbar_field_border * 1.5).
Proof.
  split; [reflexivity |]. split; [reflexivity |]. split; [simpl; discriminate |].
  simpl. rewrite !dimColour_negative by lra.
  unfold white, black. simpl. intros Heq.
  apply (f_equal Colour.r) in Heq. simpl in Heq. lra.
Qed.

(** C6, amended: the theme applied to a window gives every derived
    surface the base dimmed by its coefficient in the dark scheme and by
    -1.5 times its coefficient in the light scheme, a border variant
    adding its coefficient to that of its base, except that
    [toolbar_field_border] is the fixed transparent colour in the light
    scheme; the dark [toolbar] is the base dimmed by the toolbar
    coefficient. *)
Theorem theme_surfaces `{ColourLibrary} (pref : Pref.t) (windowId : Z)
    (colour : Colour.t) (s : Surface) :
  applyTheme pref windowId colour dark = [theme_update windowId (theme_dark pref colour)] /\
  applyTheme pref windowId colour light = [theme_update windowId (theme_light pref colour)] /\
  surface (Theme.colors (theme_dark pref colour)) s
  = Dimmed (dimColour colour (spec_coefficient pref s)) /\
  surface (Theme.colors (theme_light pref colour)) s
  = match s with
    | s_toolbar_field_border => Css "rgba(0, 0, 0, 0)"
    | _ => Dimmed (dimColour colour (- spec_coefficient pref s * 1.5))
    end /\
  Colors.toolbar (Theme.colors (theme_dark pref colour))
  = Dimmed (dimColour colour (Pref.toolbar pref)) /\
  Colors.toolbar_bottom_separator (Theme.colors (theme_light pref colour))
  = Dimmed (dimColour colour ((- Pref.toolbarBorder pref - Pref.toolbar pref) * 1.5)).
Proof.
  repeat split; try reflexivity.
  - destruct s; simpl; try reflexivity; do 2 f_equal; lra.
  - destruct s; simpl; try reflexivity; do 2 f_equal; lra.
Qed.

(** ** About pages *)

(** C7: an about page gets the table's colour for the current scheme when
    there is one, else the table's colour for the reversed scheme when
    there is one and "allow opposite scheme" is set, else the DEFAULT
    code; [about:crashparent] without an entry and without "allow opposite
    scheme" gets DEFAULT. *)
Theorem getAboutPageColour_lookup (default_aboutPageColour : PageTable) (pref : Pref.t)
    (current : Current.t) (pathname : string) :
  (forall c,
     entry default_aboutPageColour pathname (Current.scheme current) = Some c ->
     getAboutPageColour default_aboutPageColour pref current pathname = Literal c) /\
  (entry default_aboutPageColour pathname (Current.scheme current) = None ->
   forall c,
     entry default_aboutPageColour pathname (Current.reversedScheme current) = Some c ->
     Pref.allowDarkLight pref = true ->
     getAboutPageColour default_aboutPageColour pref current pathname = Literal c) /\
  (entry default_aboutPageColour pathname (Current.scheme current) = None ->
   entry default_aboutPageColour pathname (Current.reversedScheme current) = None \/
   Pref.allowDarkLight pref = false ->
   getAboutPageColour default_aboutPageColour pref current pathname = Code DEFAULT) /\
  (default_aboutPageColour "crashparent" = None ->
   Pref.allowDarkLight pref = false ->
   getAboutPageColour default_aboutPageColour pref current "crashparent" = Code DEFAULT).
Proof.
  unfold getAboutPageColour, rgba. repeat split.
  - intros c Hc. rewrite Hc. reflexivity.
  - intros Hnone c Hrev Hallow. rewrite Hnone, Hrev, Hallow. reflexivity.
  - intros Hnone [Hrev | Hallow]; rewrite Hnone.
    + rewrite Hrev. reflexivity.
    + rewrite Hallow.
      destruct (entry default_aboutPageColour pathname (Current.reversedScheme current));
        reflexivity.
  - intros Htable Hallow. unfold entry. rewrite Htable. reflexivity.
Qed.

(** Each case of the about-page lookup, on a sample table. *)
Lemma getAboutPageColour_lookup_witness :
  getAboutPageColour sample_aboutPageColour (sample_pref false []) (sample_current light)
    "logo" = Literal (RGBA 255 255 255 1) /\
  getAboutPageColour sample_aboutPageColour (sample_pref true []) (sample_current light)
    "privatebrowsing" = Literal (RGBA 37 0 62 1) /\
  getAboutPageColour sample_aboutPageColour (sample_pref false []) (sample_current light)
    "privatebrowsing" = Code DEFAULT /\
  getAboutPageColour sample_aboutPageColour (sample_pref false []) (sample_current dark)
    "crashparent" = Code DEFAULT.
Proof.
  split; [| split; [| split]].
  - apply (proj1 (getAboutPageColour_lookup sample_aboutPageColour (sample_pref false [])
                    (sample_current light) "logo")
                 (RGBA 255 255 255 1) eq_refl).
  - apply (proj1 (proj2 (getAboutPageColour_lookup sample_aboutPageColour
                           (sample_pref true []) (sample_current light) "privatebrowsing"))
                 eq_refl (RGBA 37 0 62 1) eq_refl eq_refl).
  - apply (proj1 (proj2 (proj2 (getAboutPageColour_lookup sample_aboutPageColour
                                  (sample_pref false []) (sample_current light)
                                  "privatebrowsing")))
                 eq_refl (or_intror eq_refl)).
  - apply (proj2 (proj2 (proj2 (getAboutPageColour_lookup sample_aboutPageColour
                                  (sample_pref false []) (sample_current dark)
                                  "crashparent")))
                 eq_refl eq_refl).
Defined.

(** ** Custom rules *)

(** An assignment to the [const] binding throws, so a round of the loop
    never ends in [break] and never changes the binding. *)
Lemma customRule_try_const browser url site rule v :
  customRule_try browser url site rule (Bound Const v) = Ok (Bound Const v, Next) \/
  exists e, customRule_try browser url site rule (Bound Const v) = Throw e.
Proof.
  unfold customRule_try.
  destruct (String.eqb url site); simpl; [right; eauto |].
  destruct (Browser.URL_hostname browser url) as [hostname | e]; simpl; [| right; eauto].
  destruct (String.eqb hostname site); simpl; [right; eauto | left; reflexivity].
Qed.

(** The loop leaves the [const] binding as it was declared. *)
Lemma customRule_loop_const browser url rules v :
  customRule_loop browser url rules (Bound Const v) = Ok (Bound Const v).
Proof.
  induction rules as [| [site rule] rest IH]; simpl; [reflexivity |].
  destruct (customRule_try_const browser url site rule v) as [E | [e E]];
    rewrite E; exact IH.
Qed.

(** Every message sent carries no custom rule. *)
Lemma colourRequest_customRule browser pref tab :
  colourRequest browser pref tab
  = Ok (Request.mk "COLOUR_REQUEST"
          (Conf.mk (Pref.dynamic pref) (Pref.noThemeColour pref) None)).
Proof. unfold colourRequest. rewrite customRule_loop_const. reflexivity. Qed.

(** Had the binding been declared with [let], the loop would compute the
    custom rule of the specification. *)
Lemma customRule_loop_let browser url rules :
  exists customRule,
    customRule_loop browser url rules (Bound Let None) = Ok customRule /\
    value customRule = spec_customRule browser url rules.
Proof.
  unfold spec_customRule.
  induction rules as [| [site rule] rest IH]; simpl.
  - eexists; split; reflexivity.
  - unfold customRule_try.
    destruct (String.eqb url site); simpl; [eexists; split; reflexivity |].
    destruct (Browser.URL_hostname browser url) as [hostname | e]; simpl; [| exact IH].
    destruct (String.eqb hostname site); simpl; [eexists; split; reflexivity | exact IH].
Qed.

(** C2, the defect: whenever the rule map has an entry whose key is the
    tab's URL or its hostname, the message sent carries no custom rule
    (the assignment to the [const] binding throws and the [catch] skips
    it), where the specification's lookup finds the rule of the first
    such entry. *)
Theorem colourRequest_drops_matching_rule (browser : Browser.t) (pref : Pref.t)
    (tab : Tab.t) (rule : CustomRule) :
  spec_customRule browser (Tab.url tab) (Pref.customRule pref) = Some rule ->
  exists request,
    colourRequest browser pref tab = Ok request /\
    Conf.customRule (Request.conf request) = None /\
    Conf.customRule (Request.conf request)
    <> spec_customRule browser (Tab.url tab) (Pref.customRule pref).
Proof.
  intros Hspec. rewrite colourRequest_customRule.
  eexists. split; [reflexivity |]. simpl. split; [reflexivity |].
  rewrite Hspec. discriminate.
Qed.

(** The failing input of C2: a tab at [https://example.com/] and a custom
    rule keyed by that URL. *)
Lemma colourRequest_drops_matching_rule_witness :
  exists request,
    colourRequest sample_browser
      (sample_pref false [("https://example.com/", "#ff0000")])
      (sample_tab "https://example.com/" "Example Domain") = Ok request /\
    Conf.customRule (Request.conf request) = None /\
    Conf.customRule (Request.conf request)
    <> spec_customRule sample_browser "https://example.com/"
         [("https://example.com/", "#ff0000")].
Proof.
  apply (colourRequest_drops_matching_rule sample_browser
           (sample_pref false [("https://example.com/", "#ff0000")])
           (sample_tab "https://example.com/" "Example Domain") "#ff0000" eq_refl).
Defined.

(** The same for a rule keyed by the hostname. *)
Lemma colourRequest_drops_hostname_rule :
  colourRequest sample_browser (sample_pref false [("example.com", "#ff0000")])
    (sample_tab "https://example.com/" "Example Domain")
  = Ok (Request.mk "COLOUR_REQUEST" (Conf.mk true true None)) /\
  spec_customRule sample_browser "https://example.com/" [("example.com", "#ff0000")]
  = Some "#ff0000".
Proof. split; reflexivity. Qed.

(** C8: the custom-rule lookup never throws.  The loop completes for
    every rule map, URL and URL parser, a rule whose round throws is
    skipped and the loop goes on with the remaining rules, and the message
    is built. *)
Theorem customRule_lookup_completes (browser : Browser.t) (pref : Pref.t) (tab : Tab.t)
    (rules : list (string * CustomRule)) (customRule : Binding (option CustomRule)) :
  (exists customRule',
     customRule_loop browser (Tab.url tab) rules customRule = Ok customRule') /\
  (forall site rule e,
     customRule_try browser (Tab.url tab) site rule customRule = Throw e ->
     customRule_loop browser (Tab.url tab) ((site, rule) :: rules) customRule
     = customRule_loop browser (Tab.url tab) rules customRule) /\
  (exists request, colourRequest browser pref tab = Ok request).
Proof.
  split; [| split].
  - revert customRule.
    induction rules as [| [site rule] rest IH]; intros customRule; simpl.
    + eexists; reflexivity.
    + destruct (customRule_try browser (Tab.url tab) site rule customRule)
        as [[customRule' [|]] | e]; [apply IH | eexists; reflexivity | apply IH].
  - intros site rule e E. simpl. rewrite E. reflexivity.
  - rewrite colourRequest_customRule. eexists; reflexivity.
Qed.

(** A tab whose URL does not parse and a rule map with a key that is no
    URL: the round of that key throws and the lookup goes on with the
    rest. *)
Lemma customRule_lookup_completes_witness :
  customRule_loop sample_browser "not a url"
    [("also not a url", "#ff0000"); ("example.com", "#00ff00")] (Bound Const None)
  = customRule_loop sample_browser "not a url" [("example.com", "#00ff00")] (Bound Const None).
Proof.
  apply (proj1 (proj2 (customRule_lookup_completes sample_browser (sample_pref false [])
                         (sample_tab "not a url" "") [("example.com", "#00ff00")]
                         (Bound Const None)))
               "also not a url" "#ff0000" TypeError eq_refl).
Defined.

(** ** Patterns of ordinary titles *)

Lemma list_ascii_of_string_app s1 s2 :
  list_ascii_of_string (s1 ++ s2) = (list_ascii_of_string s1 ++ list_ascii_of_string s2)%list.
Proof. induction s1 as [| c s1 IH]; simpl; [reflexivity | rewrite IH; reflexivity]. Qed.

Lemma string_of_list_ascii_app l1 l2 :
  string_of_list_ascii (l1 ++ l2)%list = string_of_list_ascii l1 ++ string_of_list_ascii l2.
Proof. induction l1 as [| c l1 IH]; simpl; [reflexivity | rewrite IH; reflexivity]. Qed.

Lemma ordinary_inv c :
  ordinary c = true ->
  RegExp.outside_fragment c = false /\ RegExp.quantifier_of c = None /\
  Ascii.eqb c "$" = false /\ Ascii.eqb c "." = false.
Proof.
  unfold ordinary. intros H.
  apply andb_prop in H. destruct H as [Hout H].
  apply negb_true_iff in Hout.
  destruct (RegExp.quantifier_of c); [discriminate |].
  apply andb_prop in H. destruct H as [Hd Hp].
  apply negb_true_iff in Hd. apply negb_true_iff in Hp. auto.
Qed.

(** Reading ordinary characters adds their terms. *)
Lemma parse_ordinary text : forall rest acc st,
  forallb ordinary text = true ->
  text <> [] ->
  RegExp.parse (text ++ rest) acc st
  = RegExp.parse rest (rev (literal text) ++ acc) RegExp.Quantifiable.
Proof.
  induction text as [| c text IH]; intros rest acc st Hord Hne; [congruence |].
  simpl in Hord. apply andb_prop in Hord. destruct Hord as [Hc Hord].
  destruct (ordinary_inv c Hc) as (_ & Hq & Hd & Hp).
  simpl. rewrite Hq, Hd, Hp.
  destruct text as [| c' text'].
  - reflexivity.
  - rewrite IH by (assumption || discriminate).
    simpl. rewrite <- !app_assoc. reflexivity.
Qed.

(** The terms of a text match exactly the texts that start with it. *)
Lemma matches_here_literal text : forall p s,
  RegExp.matches_here (literal text ++ p) s = true <->
  exists s', s = (text ++ s')%list /\ RegExp.matches_here p s' = true.
Proof.
  induction text as [| c text IH]; intros p s; simpl.
  - split; [intros H; exists s; auto | intros (s' & -> & H); exact H].
  - destruct s as [| c0 s0].
    + split; [discriminate | intros (s' & E & _); discriminate].
    + fold (literal text). split.
      * intros H. apply andb_prop in H. destruct H as [Hc H].
        apply Ascii.eqb_eq in Hc. subst c0.
        apply IH in H. destruct H as (s' & -> & H). exists s'. auto.
      * intros (s' & E & H). injection E as -> ->.
        rewrite Ascii.eqb_refl. simpl. apply IH. exists s'. auto.
Qed.

Lemma matches_here_end s : RegExp.matches_here [RegExp.EndOfInput] s = true <-> s = [].
Proof. destruct s; simpl; split; congruence. Qed.

(** The pattern matches somewhere: some suffix of the text matches it. *)
Lemma search_suffix p : forall s,
  RegExp.search p s = true <->
  exists before after, s = (before ++ after)%list /\ RegExp.matches_here p after = true.
Proof.
  induction s as [| c s IH].
  - simpl. rewrite orb_false_r. split.
    + intros H. exists [], []. auto.
    + intros (before & after & E & H).
      symmetry in E. apply app_eq_nil in E. destruct E as [_ ->]. exact H.
  - simpl. rewrite orb_true_iff, IH. split.
    + intros [H | (before & after & -> & H)].
      * exists [], (c :: s). auto.
      * exists (c :: before), after. auto.
    + intros (before & after & E & H). destruct before as [| c0 before].
      * left. simpl in E. subst after. exact H.
      * right. injection E as -> ->. exists before, after. auto.
Qed.

Lemma matches_here_optional a p s :
  RegExp.matches_here (RegExp.Atom a RegExp.Optional :: p) s
  = match s with
    | c :: s' => RegExp.atom_matches a c && RegExp.matches_here p s'
    | [] => false
    end || RegExp.matches_here p s.
Proof. reflexivity. Qed.

(** The terms of [https?://]. *)
Lemma matches_here_scheme p s :
  RegExp.matches_here
    (literal (list_ascii_of_string "http") ++
     RegExp.Atom (RegExp.Char "s") RegExp.Optional ::
     literal (list_ascii_of_string "://") ++ p) s = true <->
  exists s',
    (s = (list_ascii_of_string "http://" ++ s')%list \/
     s = (list_ascii_of_string "https://" ++ s')%list) /\
    RegExp.matches_here p s' = true.
Proof.
  rewrite matches_here_literal. split.
  - intros (s1 & -> & H).
    rewrite matches_here_optional in H.
    apply orb_true_iff in H. destruct H as [H | H].
    + destruct s1 as [| c s2]; [discriminate |].
      apply andb_prop in H. destruct H as [Hc H].
      unfold RegExp.atom_matches in Hc. apply Ascii.eqb_eq in Hc. subst c.
      apply matches_here_literal in H. destruct H as (s' & -> & H).
      exists s'. split; [right; reflexivity | exact H].
    + apply matches_here_literal in H. destruct H as (s' & -> & H).
      exists s'. split; [left; reflexivity | exact H].
  - intros (s' & [-> | ->] & H).
    + exists (list_ascii_of_string "://" ++ s')%list. split; [reflexivity |].
      rewrite matches_here_optional. apply orb_true_iff. right.
      apply (proj2 (matches_here_literal _ _ _)). exists s'. split; [reflexivity | exact H].
    + exists (list_ascii_of_string "s://" ++ s')%list. split; [reflexivity |].
      rewrite matches_here_optional. apply orb_true_iff. left.
      change (list_ascii_of_string "s://" ++ s')%list
        with ("s"%char :: (list_ascii_of_string "://" ++ s'))%list.
      apply andb_true_intro. split; [reflexivity |].
      apply (proj2 (matches_here_literal _ _ _)). exists s'. split; [reflexivity | exact H].
Qed.

(** The pattern of an ordinary title. *)
Lemma compile_ordinary_title title :
  forallb ordinary (list_ascii_of_string title) = true ->
  RegExp.compile ("https?://" ++ title ++ "$")
  = RegExp.Pattern
      (literal (list_ascii_of_string "http") ++
       RegExp.Atom (RegExp.Char "s") RegExp.Optional ::
       literal (list_ascii_of_string "://") ++
       literal (list_ascii_of_string title) ++ [RegExp.EndOfInput]).
Proof.
  intros Hord. unfold RegExp.compile. cbv zeta.
  rewrite !list_ascii_of_string_app.
  assert (Hout : existsb RegExp.outside_fragment
                   (list_ascii_of_string "https?://" ++
                    list_ascii_of_string title ++ list_ascii_of_string "$") = false).
  { rewrite !existsb_app. change (existsb _ (list_ascii_of_string "https?://")) with false.
    change (existsb _ (list_ascii_of_string "$")) with false.
    rewrite orb_false_r. simpl.
    induction (list_ascii_of_string title) as [| c t IH]; [reflexivity |].
    simpl in Hord. apply andb_prop in Hord. destruct Hord as [Hc Hord].
    simpl. rewrite (proj1 (ordinary_inv c Hc)). simpl. apply IH. exact Hord. }
  rewrite Hout.
  change (list_ascii_of_string "https?://" ++
          list_ascii_of_string title ++ list_ascii_of_string "$")%list
    with ("h" :: "t" :: "t" :: "p" :: "s" :: "?" :: ":" :: "/" :: "/" ::
          list_ascii_of_string title ++ list_ascii_of_string "$")%char%list.
  cbn [RegExp.parse RegExp.quantifier_of Ascii.eqb Bool.eqb].
  destruct (list_ascii_of_string title) as [| c t] eqn:Et.
  - reflexivity.
  - rewrite parse_ordinary by (assumption || discriminate).
    simpl RegExp.parse. rewrite !rev_app_distr, rev_involutive. simpl.
    reflexivity.
Qed.

(** For a title of ordinary characters, the test of the classifier holds
    exactly when the URL ends with [http://] or [https://] and the
    title. *)
Lemma String_match_ordinary_title browser url title :
  forallb ordinary (list_ascii_of_string title) = true ->
  exists matched,
    String_match browser url ("https?://" ++ title ++ "$") = Ok matched /\
    (matched = true <->
     exists before,
       url = before ++ "http://" ++ title \/ url = before ++ "https://" ++ title).
Proof.
  intros Hord. unfold String_match. rewrite (compile_ordinary_title title Hord).
  eexists. split; [reflexivity |].
  rewrite search_suffix. split.
  - intros (before & after & E & H).
    apply matches_here_scheme in H. destruct H as (s' & Hs & H).
    apply matches_here_literal in H. destruct H as (s'' & -> & H).
    apply matches_here_end in H. subst s''. rewrite app_nil_r in Hs.
    exists (string_of_list_ascii before).
    apply (f_equal string_of_list_ascii) in E.
    rewrite string_of_list_ascii_of_string in E. rewrite E.
    rewrite string_of_list_ascii_app.
    destruct Hs as [-> | ->]; [left | right];
      rewrite string_of_list_ascii_app, !string_of_list_ascii_of_string; reflexivity.
  - intros (before & Hurl).
    exists (list_ascii_of_string before).
    destruct Hurl as [-> | ->].
    + exists (list_ascii_of_string ("http://" ++ title)). split.
      * rewrite list_ascii_of_string_app. reflexivity.
      * apply matches_here_scheme. exists (list_ascii_of_string title). split.
        -- left. rewrite list_ascii_of_string_app. reflexivity.
        -- apply (proj2 (matches_here_literal _ _ _)). exists []. split.
           ++ rewrite app_nil_r. reflexivity.
           ++ reflexivity.
    + exists (list_ascii_of_string ("https://" ++ title)). split.
      * rewrite list_ascii_of_string_app. reflexivity.
      * apply matches_here_scheme. exists (list_ascii_of_string title). split.
        -- right. rewrite list_ascii_of_string_app. reflexivity.
        -- apply (proj2 (matches_here_literal _ _ _)). exists []. split.
           ++ rewrite app_nil_r. reflexivity.
           ++ reflexivity.
Qed.

(** ** Pages that do not respond *)

(** The heuristic chain, for a tab whose page gives no response. *)
Lemma getWebPageColour_no_response browser pref tab :
  Browser.tabs_sendMessage browser (Tab.id tab)
    (Request.mk "COLOUR_REQUEST"
       (Conf.mk (Pref.dynamic pref) (Pref.noThemeColour pref) None)) = Ok None ->
  getWebPageColour browser pref (Some tab)
  = if startsWith (Tab.url tab) "data:image" then Ok (Code IMAGEVIEWER)
    else if endsWith (Tab.url tab) ".pdf" || endsWith (Tab.title tab) ".pdf" then
      Ok (Code PDFVIEWER)
    else if match Tab.favIconUrl tab with
            | Some favIconUrl => startsWith favIconUrl "chrome:"
            | None => false
            end then Ok (Code DEFAULT)
    else
      matched <- String_match browser (Tab.url tab)
                   ("https?://" ++ Tab.title tab ++ "$") ;;
      if matched then Ok (Code PLAINTEXT) else Ok (Code FALLBACK).
Proof.
  intros Hsend. unfold getWebPageColour.
  rewrite colourRequest_customRule. simpl. rewrite Hsend. reflexivity.
Qed.

(** C4, on the failing input: the URL
    [https://example.com/notes.txt?raw=1] is [https://] followed by the
    title [example.com/notes.txt?raw=1], the page gives no response, and
    the classifier returns FALLBACK: in the pattern built from the title,
    [?] makes the [t] before it optional instead of standing for itself,
    so the URL does not match. *)
Theorem plain_text_with_query_is_fallback
    (URL_hostname : string -> Exc string) (RegExp_outside : string -> string -> Exc bool)
    (pref : Pref.t) :
  "https://example.com/notes.txt?raw=1" = "https://" ++ "example.com/notes.txt?raw=1" /\
  getWebPageColour (Browser.mk URL_hostname (fun _ _ => Ok None) RegExp_outside) pref
    (Some (sample_tab "https://example.com/notes.txt?raw=1" "example.com/notes.txt?raw=1"))
  = Ok (Code FALLBACK).
Proof.
  split; [reflexivity |].
  rewrite getWebPageColour_no_response by reflexivity. reflexivity.
Qed.

(** A title that is no pattern makes the classifier throw. *)
Lemma title_with_plus_signs_throws URL_hostname RegExp_outside pref :
  getWebPageColour (Browser.mk URL_hostname (fun _ _ => Ok None) RegExp_outside) pref
    (Some (sample_tab "https://example.org/cpp" "C++ notes"))
  = Throw SyntaxError.
Proof. rewrite getWebPageColour_no_response by reflexivity. reflexivity. Qed.

(** A URL that only ends with [http://] and the title is classified as
    plain text. *)
Lemma url_ending_with_title_is_plaintext URL_hostname RegExp_outside pref :
  getWebPageColour (Browser.mk URL_hostname (fun _ _ => Ok None) RegExp_outside) pref
    (Some (sample_tab "https://example.org/view?src=http://readme" "readme"))
  = Ok (Code PLAINTEXT).
Proof. rewrite getWebPageColour_no_response by reflexivity. reflexivity. Qed.

(** ** Messages *)

(** C3, the defect: for a SCRIPT_LOADED message from an active tab, the
    action calls [getWebPageColour] without a tab, reading its URL throws
    a [TypeError], the action's promise is rejected, and [setFrameColour]
    is not called. *)
Theorem script_loaded_is_rejected (browser : Browser.t) (pref : Pref.t)
    (message : Message.t) (tab : Tab.t) :
  Tab.active tab = true ->
  Message.reason message = Some "SCRIPT_LOADED" ->
  handleMessage browser pref (Some message) (Some tab) = rejected TypeError /\
  forall windowId colour,
    handleMessage browser pref (Some message) (Some tab)
    <> run_setFrameColour windowId colour.
Proof.
  intros Hactive Hreason.
  assert (E : handleMessage browser pref (Some message) (Some tab) = rejected TypeError).
  { unfold handleMessage, reason_key. rewrite Hactive, Hreason. reflexivity. }
  split; [exact E |]. intros windowId colour. rewrite E. discriminate.
Qed.

(** The failing input of C3: the message [{ reason: "SCRIPT_LOADED" }]
    from the active tab of window 1. *)
Lemma script_loaded_is_rejected_witness :
  handleMessage sample_browser (sample_pref false [])
    (Some (Message.mk (Some "SCRIPT_LOADED") None))
    (Some (sample_tab "https://example.com/" "Example Domain"))
  = rejected TypeError.
Proof.
  apply (proj1 (script_loaded_is_rejected sample_browser (sample_pref false [])
                  (Message.mk (Some "SCRIPT_LOADED") None)
                  (sample_tab "https://example.com/" "Example Domain")
                  eq_refl eq_refl)).
Defined.

(** Without a sender tab, or from a tab that is not active, the handler
    runs [update]. *)
Lemma handleMessage_not_active browser pref message tab :
  match tab with
  | Some tab => Tab.active tab = false
  | None => True
  end ->
  handleMessage browser pref message tab = run_update.
Proof.
  destruct tab as [tab |]; simpl; [| reflexivity].
  intros Hactive. rewrite Hactive. reflexivity.
Qed.

(** A reason that is neither a key of [actions] nor a member inherited
    from [Object.prototype] makes the handler run [update]. *)
Lemma handleMessage_other_reason browser pref message tab :
  actions browser pref message tab (reason_key message) = None ->
  handleMessage browser pref message (Some tab) = run_update.
Proof.
  intros Hnone. unfold handleMessage. rewrite Hnone.
  destruct (Tab.active tab); reflexivity.
Qed.

(** The reason [toString] from an active tab does not run [update]: the
    [in] operator finds the inherited member. *)
Lemma handleMessage_inherited_reason browser pref id windowId url title favIconUrl :
  handleMessage browser pref (Some (Message.mk (Some "toString") None))
    (Some (Tab.mk id windowId true url title favIconUrl))
  = inherited "toString".
Proof. reflexivity. Qed.

(** The reason [__proto__] from an active tab makes the handler throw: the
    inherited member is no function. *)
Lemma handleMessage_throwing_member browser pref id windowId url title favIconUrl :
  handleMessage browser pref (Some (Message.mk (Some "__proto__") None))
    (Some (Tab.mk id windowId true url title favIconUrl))
  = throws TypeError.
Proof. reflexivity. Qed.

(** * Properties of the rest of the background script *)

(** ** Resolving the scheme *)

(** X1: an explicit light or dark setting is the scheme whatever the
    system prefers; any other setting follows the system's dark-mode
    query, and is light when there is no query object. *)
Theorem getCurrentScheme_setting_first (value : string) (darkModeDetection : option bool) :
  (value = "light" -> getCurrentScheme value darkModeDetection = light) /\
  (value = "dark" -> getCurrentScheme value darkModeDetection = dark) /\
  (value <> "light" -> value <> "dark" ->
   getCurrentScheme value darkModeDetection
   = match darkModeDetection with
     | Some true => dark
     | Some false | None => light
     end).
Proof.
  unfold getCurrentScheme. split; [| split].
  - intros ->. reflexivity.
  - intros ->. reflexivity.
  - intros Hl Hd.
    apply String.eqb_neq in Hl. apply String.eqb_neq in Hd. rewrite Hl, Hd.
    destruct darkModeDetection as [[|] |]; reflexivity.
Qed.

(** The setting "dark" on a light system, and the setting "auto" on a
    dark system and without a query object. *)
Lemma getCurrentScheme_setting_first_witness :
  getCurrentScheme "dark" (Some false) = dark /\
  getCurrentScheme "light" (Some true) = light /\
  getCurrentScheme "auto" (Some true) = dark /\
  getCurrentScheme "auto" None = light.
Proof.
  split; [| split; [| split]].
  - apply (proj1 (proj2 (getCurrentScheme_setting_first "dark" (Some false))) eq_refl).
  - apply (proj1 (getCurrentScheme_setting_first "light" (Some true)) eq_refl).
  - apply (proj2 (proj2 (getCurrentScheme_setting_first "auto" (Some true))));
      discriminate.
  - apply (proj2 (proj2 (getCurrentScheme_setting_first "auto" None))); discriminate.
Defined.

(** X2: after [current.update()] with custom settings off, the HOME and
    FALLBACK codes stand for the default colours in both schemes and the
    custom-rule map of [current] is empty, whatever is stored; with custom
    settings on they stand for the stored colours and the map is the
    stored one.  The scheme is the resolved one either way. *)
Theorem current_update_colours (defaults : Defaults.t) (stored : Stored.t) (pref : Pref.t)
    (value : string) (darkModeDetection : option bool) :
  let updated := current_update defaults stored pref value darkModeDetection in
  Current.scheme (Updated.current updated) = getCurrentScheme value darkModeDetection /\
  (Stored.custom stored = false ->
   colourCode (Updated.current updated) HOME
   = per_scheme (Some (Defaults.default_homeBackground_light defaults))
                (Some (Defaults.default_homeBackground_dark defaults)) /\
   colourCode (Updated.current updated) FALLBACK
   = per_scheme (Some (Defaults.default_fallbackColour_light defaults))
                (Some (Defaults.default_fallbackColour_dark defaults)) /\
   Updated.customRule updated = []) /\
  (Stored.custom stored = true ->
   colourCode (Updated.current updated) HOME
   = per_scheme (Some (Stored.homeBackground_light stored))
                (Some (Stored.homeBackground_dark stored)) /\
   colourCode (Updated.current updated) FALLBACK
   = per_scheme (Some (Stored.fallbackColour_light stored))
                (Some (Stored.fallbackColour_dark stored)) /\
   Updated.customRule updated = Pref.customRule pref).
Proof.
  unfold current_update, rgba. cbv zeta.
  split; [destruct (Stored.custom stored); reflexivity |].
  split; intros Hcustom; rewrite Hcustom; repeat split.
Qed.

(** Stored colours with custom settings off and on. *)
Lemma current_update_colours_witness :
  colourCode
    (Updated.current (current_update sample_defaults (sample_stored false)
                        (sample_pref false [("example.com", "#ff0000")]) "auto" None))
    HOME light = Some (RGBA 255 255 255 1) /\
  colourCode
    (Updated.current (current_update sample_defaults (sample_stored true)
                        (sample_pref false [("example.com", "#ff0000")]) "auto" None))
    HOME light = Some (RGBA 250 240 230 1).
Proof.
  split.
  - rewrite (proj1 (proj1 (proj2 (current_update_colours sample_defaults
                                    (sample_stored false)
                                    (sample_pref false [("example.com", "#ff0000")])
                                    "auto" None)) eq_refl)).
    reflexivity.
  - rewrite (proj1 (proj2 (proj2 (current_update_colours sample_defaults
                                    (sample_stored true)
                                    (sample_pref false [("example.com", "#ff0000")])
                                    "auto" None)) eq_refl)).
    reflexivity.
Defined.

(** ** Protected pages *)

(** X3: a protected page gets either a colour of its table entry or the
    FALLBACK code, never another code: a literal colour is the entry's
    colour for the current scheme, or, only with "allow opposite scheme"
    and no colour for the current scheme, the entry's colour for the
    reversed scheme; FALLBACK is returned exactly when neither
    applies. *)
Theorem getProtectedPageColour_sound (default_protectedPageColour : PageTable)
    (pref : Pref.t) (current : Current.t) (hostname : string) :
  (forall c,
     getProtectedPageColour default_protectedPageColour pref current hostname = Literal c ->
     entry default_protectedPageColour hostname (Current.scheme current) = Some c \/
     (entry default_protectedPageColour hostname (Current.scheme current) = None /\
      entry default_protectedPageColour hostname (Current.reversedScheme current) = Some c /\
      Pref.allowDarkLight pref = true)) /\
  (forall code,
     getProtectedPageColour default_protectedPageColour pref current hostname = Code code ->
     code = FALLBACK /\
     entry default_protectedPageColour hostname (Current.scheme current) = None /\
     (entry default_protectedPageColour hostname (Current.reversedScheme current) = None \/
      Pref.allowDarkLight pref = false)).
Proof.
  unfold getProtectedPageColour, rgba.
  destruct (entry default_protectedPageColour hostname (Current.scheme current))
    as [c0 |] eqn:E1.
  - split; [intros c H; injection H as <-; left; reflexivity | intros code H; discriminate].
  - destruct (entry default_protectedPageColour hostname (Current.reversedScheme current))
      as [c1 |] eqn:E2; destruct (Pref.allowDarkLight pref) eqn:Ea; split;
      try (intros c H; discriminate);
      try (intros x H; injection H as <-; auto).
Qed.

(** A site with a light colour only, seen in the dark scheme: its light
    colour with "allow opposite scheme", FALLBACK without. *)
Lemma getProtectedPageColour_sound_witness :
  (entry sample_protectedPageColour "addons.mozilla.org" dark = Some (RGBA 236 236 236 1) \/
   entry sample_protectedPageColour "addons.mozilla.org" dark = None /\
   entry sample_protectedPageColour "addons.mozilla.org" light = Some (RGBA 236 236 236 1) /\
   true = true) /\
  FALLBACK = FALLBACK /\
  entry sample_protectedPageColour "addons.mozilla.org" dark = None /\
  (entry sample_protectedPageColour "addons.mozilla.org" light = None \/ false = false).
Proof.
  split.
  - apply (proj1 (getProtectedPageColour_sound sample_protectedPageColour
                    (sample_pref true []) (sample_current dark) "addons.mozilla.org")
                 (RGBA 236 236 236 1) eq_refl).
  - apply (proj2 (getProtectedPageColour_sound sample_protectedPageColour
                    (sample_pref false []) (sample_current dark) "addons.mozilla.org")
                 FALLBACK eq_refl).
Defined.

(** ** Add-on pages *)

Lemma hostPermissions_loop_sound pref uuid addon hosts rule :
  hostPermissions_loop pref uuid addon hosts = Some rule ->
  exists host,
    In host hosts /\
    startsWith host "moz-extension:" = true /\
    strict_equal uuid (nth_error (String_split host) 2) = true /\
    property ("Add-on ID: " ++ Addon.id addon) (Pref.customRule pref) = Some rule.
Proof.
  induction hosts as [| host rest IH]; [discriminate |].
  cbn [hostPermissions_loop In].
  assert (Hrest : hostPermissions_loop pref uuid addon rest = Some rule ->
                  exists host0,
                    (host = host0 \/ In host0 rest) /\
                    startsWith host0 "moz-extension:" = true /\
                    strict_equal uuid (nth_error (String_split host0) 2) = true /\
                    property ("Add-on ID: " ++ Addon.id addon) (Pref.customRule pref)
                    = Some rule).
  { intros H. destruct (IH H) as (host' & Hin & H'). exists host'. auto. }
  destruct (startsWith host "moz-extension:") eqn:Hs; cbn [andb]; [| exact Hrest].
  destruct (strict_equal uuid (nth_error (String_split host) 2)) eqn:Hu; [| exact Hrest].
  destruct (property ("Add-on ID: " ++ Addon.id addon) (Pref.customRule pref))
    as [rule' |] eqn:Hp; [| exact Hrest].
  intros H. injection H as <-. exists host. auto.
Qed.

Lemma addonList_loop_sound pref uuid addonList rule :
  addonList_loop pref uuid addonList = Some rule ->
  exists addon hosts host,
    In addon addonList /\
    Addon.type addon = "extension" /\
    Addon.hostPermissions addon = Some hosts /\
    In host hosts /\
    startsWith host "moz-extension:" = true /\
    strict_equal uuid (nth_error (String_split host) 2) = true /\
    property ("Add-on ID: " ++ Addon.id addon) (Pref.customRule pref) = Some rule.
Proof.
  induction addonList as [| addon rest IH]; simpl; [discriminate |].
  assert (Hrest : addonList_loop pref uuid rest = Some rule ->
                  exists addon0 hosts host,
                    (addon = addon0 \/ In addon0 rest) /\
                    Addon.type addon0 = "extension" /\
                    Addon.hostPermissions addon0 = Some hosts /\
                    In host hosts /\
                    startsWith host "moz-extension:" = true /\
                    strict_equal uuid (nth_error (String_split host) 2) = true /\
                    property ("Add-on ID: " ++ Addon.id addon0) (Pref.customRule pref)
                    = Some rule).
  { intros H. destruct (IH H) as (addon0 & hosts & host & Hin & H').
    exists addon0, hosts, host. auto. }
  destruct (String.eqb (Addon.type addon) "extension") eqn:Ht; [| exact Hrest].
  destruct (Addon.hostPermissions addon) as [hosts |] eqn:Hh; [| exact Hrest].
  destruct (hostPermissions_loop pref uuid addon hosts) as [rule' |] eqn:Hl; [| exact Hrest].
  intros H. injection H as <-.
  destruct (hostPermissions_loop_sound pref uuid addon hosts rule' Hl)
    as (host & Hin & Hs & Hu & Hp).
  apply String.eqb_eq in Ht.
  exists addon, hosts, host. auto 10.
Qed.

(** X4: an add-on page gets the text ADDON, or else the custom rule stored
    under the key "Add-on ID: " and the id of an installed add-on of type
    extension that lists a [moz-extension:] host permission whose third
    piece (the UUID) is that of the page's URL. *)
Theorem getAddonPageColour_sound (addonList : list Addon.t) (pref : Pref.t) (url : string) :
  getAddonPageColour addonList pref url = "ADDON" \/
  exists addon hosts host,
    In addon addonList /\
    Addon.type addon = "extension" /\
    Addon.hostPermissions addon = Some hosts /\
    In host hosts /\
    startsWith host "moz-extension:" = true /\
    strict_equal (nth_error (String_split url) 2) (nth_error (String_split host) 2) = true /\
    property ("Add-on ID: " ++ Addon.id addon) (Pref.customRule pref)
    = Some (getAddonPageColour addonList pref url).
Proof.
  unfold getAddonPageColour. cbv zeta.
  destruct (addonList_loop pref (nth_error (String_split url) 2) addonList)
    as [rule |] eqn:E; [right | left; reflexivity].
  exact (addonList_loop_sound pref _ addonList rule E).
Qed.

Lemma hostPermissions_loop_no_rule pref uuid addon hosts :
  property ("Add-on ID: " ++ Addon.id addon) (Pref.customRule pref) = None ->
  hostPermissions_loop pref uuid addon hosts = None.
Proof.
  intros Hp. induction hosts as [| host rest IH]; [reflexivity |].
  cbn [hostPermissions_loop]. rewrite Hp, IH. destruct (_ && _); reflexivity.
Qed.

(** X5: when the preferences hold no rule under "Add-on ID: " and the id
    of any installed add-on (in particular with no add-on installed or no
    custom rule stored), every add-on page gets the text ADDON. *)
Theorem getAddonPageColour_no_rule (addonList : list Addon.t) (pref : Pref.t)
    (url : string) :
  (forall addon,
     In addon addonList ->
     property ("Add-on ID: " ++ Addon.id addon) (Pref.customRule pref) = None) ->
  getAddonPageColour addonList pref url = "ADDON".
Proof.
  intros Hnone. unfold getAddonPageColour. cbv zeta.
  generalize (nth_error (String_split url) 2). intros uuid.
  induction addonList as [| addon rest IH]; [reflexivity |].
  cbn [addonList_loop].
  assert (Hrest : match addonList_loop pref uuid rest with
                  | Some rule => rule
                  | None => "ADDON"
                  end = "ADDON")
    by (apply IH; intros addon' Hin; apply Hnone; right; exact Hin).
  destruct (String.eqb (Addon.type addon) "extension"); [| exact Hrest].
  destruct (Addon.hostPermissions addon) as [hosts |]; [| exact Hrest].
  rewrite hostPermissions_loop_no_rule by (apply Hnone; left; reflexivity).
  exact Hrest.
Qed.

(** The installed add-ons of the examples, with a rule for a site only. *)
Lemma getAddonPageColour_no_rule_witness :
  getAddonPageColour sample_addons (sample_pref false [("example.com", "#ff0000")])
    "moz-extension://1234-abcd/options.html" = "ADDON".
Proof.
  apply (getAddonPageColour_no_rule sample_addons
           (sample_pref false [("example.com", "#ff0000")])
           "moz-extension://1234-abcd/options.html").
  intros addon [<- | [<- | []]]; reflexivity.
Defined.

(** The add-ons that the search looks at. *)
Lemma addonList_loop_filter pref uuid addonList :
  addonList_loop pref uuid
    (filter (fun addon =>
               String.eqb (Addon.type addon) "extension" &&
               match Addon.hostPermissions addon with
               | Some _ => true
               | None => false
               end) addonList)
  = addonList_loop pref uuid addonList.
Proof.
  induction addonList as [| addon rest IH]; simpl; [reflexivity |].
  destruct (String.eqb (Addon.type addon) "extension") eqn:Ht; simpl; [| exact IH].
  destruct (Addon.hostPermissions addon) as [hosts |] eqn:Hh; simpl; [| exact IH].
  rewrite Ht, Hh, IH. reflexivity.
Qed.

(** X6: themes and other add-ons that are not of type extension, and
    add-ons without host permissions, make no difference to the colour
    of an add-on page, wherever they stand in the list. *)
Theorem getAddonPageColour_extensions_only (addonList : list Addon.t) (pref : Pref.t)
    (url : string) :
  getAddonPageColour
    (filter (fun addon =>
               String.eqb (Addon.type addon) "extension" &&
               match Addon.hostPermissions addon with
               | Some _ => true
               | None => false
               end) addonList) pref url
  = getAddonPageColour addonList pref url.
Proof. unfold getAddonPageColour. rewrite addonList_loop_filter. reflexivity. Qed.

Lemma hostPermissions_loop_complete pref uuid addon hosts host rule :
  In host hosts ->
  startsWith host "moz-extension:" = true ->
  strict_equal uuid (nth_error (String_split host) 2) = true ->
  property ("Add-on ID: " ++ Addon.id addon) (Pref.customRule pref) = Some rule ->
  hostPermissions_loop pref uuid addon hosts = Some rule.
Proof.
  intros Hin Hs Hu Hp. induction hosts as [| host' rest IH]; [destruct Hin |].
  cbn [hostPermissions_loop]. rewrite Hp.
  destruct Hin as [-> | Hin].
  - rewrite Hs, Hu. reflexivity.
  - rewrite (IH Hin). destruct (_ && _); reflexivity.
Qed.

Lemma addonList_loop_complete pref uuid addonList addon hosts host rule :
  In addon addonList ->
  Addon.type addon = "extension" ->
  Addon.hostPermissions addon = Some hosts ->
  In host hosts ->
  startsWith host "moz-extension:" = true ->
  strict_equal uuid (nth_error (String_split host) 2) = true ->
  property ("Add-on ID: " ++ Addon.id addon) (Pref.customRule pref) = Some rule ->
  exists rule', addonList_loop pref uuid addonList = Some rule'.
Proof.
  intros Hin Ht Hh Hhost Hs Hu Hp.
  induction addonList as [| addon' rest IH]; [destruct Hin |].
  cbn [addonList_loop].
  destruct Hin as [-> | Hin].
  - rewrite Ht, Hh, String.eqb_refl.
    rewrite (hostPermissions_loop_complete pref uuid addon hosts host rule Hhost Hs Hu Hp).
    eexists; reflexivity.
  - destruct (IH Hin) as [rule' Hrest]. rewrite Hrest.
    destruct (String.eqb (Addon.type addon') "extension"); [| eexists; reflexivity].
    destruct (Addon.hostPermissions addon') as [hosts' |]; [| eexists; reflexivity].
    destruct (hostPermissions_loop pref uuid addon' hosts'); eexists; reflexivity.
Qed.

(** X7: when some installed extension lists a [moz-extension:] host
    permission with the UUID of the page's URL and the preferences hold a
    rule under "Add-on ID: " and its id, the page gets the rule stored for
    an installed extension, not the default of the function. *)
Theorem getAddonPageColour_complete (addonList : list Addon.t) (pref : Pref.t)
    (url : string) (addon : Addon.t) (hosts : list string) (host : string)
    (rule : CustomRule) :
  In addon addonList ->
  Addon.type addon = "extension" ->
  Addon.hostPermissions addon = Some hosts ->
  In host hosts ->
  startsWith host "moz-extension:" = true ->
  strict_equal (nth_error (String_split url) 2) (nth_error (String_split host) 2) = true ->
  property ("Add-on ID: " ++ Addon.id addon) (Pref.customRule pref) = Some rule ->
  exists addon',
    In addon' addonList /\
    Addon.type addon' = "extension" /\
    property ("Add-on ID: " ++ Addon.id addon') (Pref.customRule pref)
    = Some (getAddonPageColour addonList pref url).
Proof.
  intros Hin Ht Hh Hhost Hs Hu Hp.
  destruct (addonList_loop_complete pref _ addonList addon hosts host rule
              Hin Ht Hh Hhost Hs Hu Hp) as [rule' Hloop].
  destruct (addonList_loop_sound pref _ addonList rule' Hloop)
    as (addon' & hosts' & host' & Hin' & Ht' & _ & _ & _ & _ & Hp').
  exists addon'. unfold getAddonPageColour. cbv zeta. rewrite Hloop. auto.
Qed.

(** The options page of the extension of the examples, with a rule stored
    for it. *)
Lemma getAddonPageColour_complete_witness :
  exists addon',
    In addon' sample_addons /\
    Addon.type addon' = "extension" /\
    property ("Add-on ID: " ++ Addon.id addon')
      (Pref.customRule (sample_pref false [("Add-on ID: reader@example.org", "PLAINTEXT")]))
    = Some (getAddonPageColour sample_addons
              (sample_pref false [("Add-on ID: reader@example.org", "PLAINTEXT")])
              "moz-extension://1234-abcd/options.html").
Proof.
  apply (getAddonPageColour_complete sample_addons
           (sample_pref false [("Add-on ID: reader@example.org", "PLAINTEXT")])
           "moz-extension://1234-abcd/options.html"
           (Addon.mk "reader@example.org" "extension"
              (Some ["https://*.example.org/*"; "moz-extension://1234-abcd/*"]))
           ["https://*.example.org/*"; "moz-extension://1234-abcd/*"]
           "moz-extension://1234-abcd/*" "PLAINTEXT").
  - right. left. reflexivity.
  - reflexivity.
  - reflexivity.
  - right. left. reflexivity.
  - reflexivity.
  - reflexivity.
  - reflexivity.
Defined.

(** ** Web pages *)

(** X8: the outcome of the page request decides first.  A colour the page
    responds with is returned as it is, whatever the URL, the title and
    the favicon; a rejected request makes the classifier reject with the
    same error, and none of the heuristics is tried. *)
Theorem getWebPageColour_response_first (browser : Browser.t) (pref : Pref.t) (tab : Tab.t) :
  let request :=
    Request.mk "COLOUR_REQUEST"
      (Conf.mk (Pref.dynamic pref) (Pref.noThemeColour pref) None) in
  (forall response,
     Browser.tabs_sendMessage browser (Tab.id tab) request = Ok (Some response) ->
     getWebPageColour browser pref (Some tab) = Ok (Response.colour response)) /\
  (forall e,
     Browser.tabs_sendMessage browser (Tab.id tab) request = Throw e ->
     getWebPageColour browser pref (Some tab) = Throw e).
Proof.
  cbv zeta. unfold getWebPageColour. rewrite colourRequest_customRule.
  split; intros x Hsend; simpl; rewrite Hsend; reflexivity.
Qed.

(** A page that answers with the HOME code although its title is no
    pattern, and a tab whose request is rejected. *)
Lemma getWebPageColour_response_first_witness :
  getWebPageColour
    (Browser.mk (Browser.URL_hostname sample_browser)
       (fun _ _ => Ok (Some (Response.mk (Code HOME))))
       (Browser.RegExp_outside sample_browser))
    (sample_pref false []) (Some (sample_tab "https://example.org/cpp" "C++ notes"))
  = Ok (Code HOME) /\
  getWebPageColour
    (Browser.mk (Browser.URL_hostname sample_browser)
       (fun _ _ => Throw ConnectionError)
       (Browser.RegExp_outside sample_browser))
    (sample_pref false []) (Some (sample_tab "https://example.org/cpp" "C++ notes"))
  = Throw ConnectionError.
Proof.
  split.
  - apply (proj1 (getWebPageColour_response_first
                    (Browser.mk (Browser.URL_hostname sample_browser)
                       (fun _ _ => Ok (Some (Response.mk (Code HOME))))
                       (Browser.RegExp_outside sample_browser))
                    (sample_pref false [])
                    (sample_tab "https://example.org/cpp" "C++ notes"))
                 (Response.mk (Code HOME)) eq_refl).
  - apply (proj2 (getWebPageColour_response_first
                    (Browser.mk (Browser.URL_hostname sample_browser)
                       (fun _ _ => Throw ConnectionError)
                       (Browser.RegExp_outside sample_browser))
                    (sample_pref false [])
                    (sample_tab "https://example.org/cpp" "C++ notes"))
                 ConnectionError eq_refl).
Defined.

(** X9: for a page without a response, the three tests that come before
    the pattern decide without building it: a data-image URL is an image
    even when it ends with [.pdf], a URL or title ending with [.pdf] is a
    PDF, a [chrome:] favicon means DEFAULT, and the classifier returns for
    every title, also one that is no valid pattern. *)
Theorem getWebPageColour_before_pattern (browser : Browser.t) (pref : Pref.t) (tab : Tab.t) :
  Browser.tabs_sendMessage browser (Tab.id tab)
    (Request.mk "COLOUR_REQUEST"
       (Conf.mk (Pref.dynamic pref) (Pref.noThemeColour pref) None)) = Ok None ->
  (startsWith (Tab.url tab) "data:image" = true ->
   getWebPageColour browser pref (Some tab) = Ok (Code IMAGEVIEWER)) /\
  (startsWith (Tab.url tab) "data:image" = false ->
   endsWith (Tab.url tab) ".pdf" = true \/ endsWith (Tab.title tab) ".pdf" = true ->
   getWebPageColour browser pref (Some tab) = Ok (Code PDFVIEWER)) /\
  (startsWith (Tab.url tab) "data:image" = false ->
   endsWith (Tab.url tab) ".pdf" = false ->
   endsWith (Tab.title tab) ".pdf" = false ->
   forall favIconUrl,
     Tab.favIconUrl tab = Some favIconUrl ->
     startsWith favIconUrl "chrome:" = true ->
     getWebPageColour browser pref (Some tab) = Ok (Code DEFAULT)).
Proof.
  intros Hsend. rewrite (getWebPageColour_no_response browser pref tab Hsend).
  split; [| split].
  - intros Hd. rewrite Hd. reflexivity.
  - intros Hd Hp. rewrite Hd.
    destruct Hp as [Hp | Hp]; rewrite Hp; [| rewrite orb_true_r]; reflexivity.
  - intros Hd Hu Ht favIconUrl Hf Hc. rewrite Hd, Hu, Ht, Hf, Hc. reflexivity.
Qed.

(** A PDF whose title is no valid pattern. *)
Lemma getWebPageColour_before_pattern_witness :
  getWebPageColour sample_browser (sample_pref false [])
    (Some (sample_tab "https://example.org/cpp" "C++ notes.pdf"))
  = Ok (Code PDFVIEWER).
Proof.
  apply (proj1 (proj2 (getWebPageColour_before_pattern sample_browser (sample_pref false [])
                         (sample_tab "https://example.org/cpp" "C++ notes.pdf") eq_refl))
               eq_refl (or_intror eq_refl)).
Defined.

(** X10: for a page without a response that none of the first three tests
    takes and whose title holds no pattern character, the classifier
    returns PLAINTEXT when the URL ends with [http://] or [https://]
    followed by the title, and FALLBACK otherwise. *)
Theorem getWebPageColour_ordinary_title (browser : Browser.t) (pref : Pref.t) (tab : Tab.t) :
  Browser.tabs_sendMessage browser (Tab.id tab)
    (Request.mk "COLOUR_REQUEST"
       (Conf.mk (Pref.dynamic pref) (Pref.noThemeColour pref) None)) = Ok None ->
  startsWith (Tab.url tab) "data:image" = false ->
  endsWith (Tab.url tab) ".pdf" = false ->
  endsWith (Tab.title tab) ".pdf" = false ->
  match Tab.favIconUrl tab with
  | Some favIconUrl => startsWith favIconUrl "chrome:"
  | None => false
  end = false ->
  forallb ordinary (list_ascii_of_string (Tab.title tab)) = true ->
  ((exists before,
      Tab.url tab = before ++ "http://" ++ Tab.title tab \/
      Tab.url tab = before ++ "https://" ++ Tab.title tab) ->
   getWebPageColour browser pref (Some tab) = Ok (Code PLAINTEXT)) /\
  (~ (exists before,
        Tab.url tab = before ++ "http://" ++ Tab.title tab \/
        Tab.url tab = before ++ "https://" ++ Tab.title tab) ->
   getWebPageColour browser pref (Some tab) = Ok (Code FALLBACK)).
Proof.
  intros Hsend Hd Hu Ht Hf Hord.
  rewrite (getWebPageColour_no_response browser pref tab Hsend).
  rewrite Hd, Hu, Ht, Hf. cbn [orb].
  destruct (String_match_ordinary_title browser (Tab.url tab) (Tab.title tab) Hord)
    as (matched & Hmatch & Hiff).
  rewrite Hmatch. cbn [bind].
  split.
  - intros Hends. rewrite (proj2 Hiff Hends). reflexivity.
  - intros Hnot. destruct matched; [| reflexivity].
    exfalso. apply Hnot. apply Hiff. reflexivity.
Qed.

(** A plain-text page titled by its address. *)
Lemma getWebPageColour_ordinary_title_witness :
  getWebPageColour sample_browser (sample_pref false [])
    (Some (sample_tab "https://localhost/notes" "localhost/notes"))
  = Ok (Code PLAINTEXT).
Proof.
  apply (proj1 (getWebPageColour_ordinary_title sample_browser (sample_pref false [])
                  (sample_tab "https://localhost/notes" "localhost/notes")
                  eq_refl eq_refl eq_refl eq_refl eq_refl eq_refl)).
  exists "". right. reflexivity.
Defined.

(** ** Updating a tab *)

Ltac compare_texts := cbn [String.eqb Ascii.eqb Bool.eqb orb andb].

(** X11: [updateTab] rejects when the tab's URL does not parse, and
    otherwise, whatever branch classifies the page, the only window whose
    frame colour it sets is the tab's own. *)
Theorem updateTab_own_window (URL_new : string -> Exc URL.t) (browser : Browser.t)
    (management_getAll : Exc (list Addon.t))
    (default_aboutPageColour default_protectedPageColour : PageTable)
    (pref : Pref.t) (current : Current.t) (tab : Tab.t) :
  (forall e,
     URL_new (Tab.url tab) = Throw e ->
     updateTab URL_new browser management_getAll default_aboutPageColour
       default_protectedPageColour pref current tab = Throw e) /\
  (forall windowId colour,
     updateTab URL_new browser management_getAll default_aboutPageColour
       default_protectedPageColour pref current tab = Ok (windowId, colour) ->
     windowId = Tab.windowId tab).
Proof.
  unfold updateTab. split.
  - intros e He. rewrite He. reflexivity.
  - intros windowId colour.
    destruct (URL_new (Tab.url tab)) as [url | e]; cbn [bind]; [| discriminate].
    repeat match goal with
           | |- context [if ?b then _ else _] => destruct b
           end;
      try (intros H; injection H as <- _; reflexivity).
    + destruct management_getAll as [addonList | e]; cbn [bind]; [| discriminate].
      intros H; injection H as <- _; reflexivity.
    + destruct (getWebPageColour browser pref (Some tab)) as [c | e]; cbn [bind];
        [| discriminate].
      intros H; injection H as <- _; reflexivity.
Qed.

(** A tab in window 1 whose URL does not parse, and one on an about
    page. *)
Lemma updateTab_own_window_witness :
  updateTab sample_URL sample_browser (Ok sample_addons) sample_aboutPageColour
    sample_protectedPageColour (sample_pref false []) (sample_current light)
    (sample_tab "not a url" "New Tab") = Throw TypeError /\
  1%Z = Tab.windowId (sample_tab "about:privatebrowsing" "Private Browsing").
Proof.
  split.
  - apply (proj1 (updateTab_own_window sample_URL sample_browser (Ok sample_addons)
                    sample_aboutPageColour sample_protectedPageColour
                    (sample_pref false []) (sample_current light)
                    (sample_tab "not a url" "New Tab")) TypeError eq_refl).
  - apply (proj2 (updateTab_own_window sample_URL sample_browser (Ok sample_addons)
                    sample_aboutPageColour sample_protectedPageColour
                    (sample_pref false []) (sample_current light)
                    (sample_tab "about:privatebrowsing" "Private Browsing"))
                 1%Z (frame_colour (Code DEFAULT)) eq_refl).
Defined.

(** X12: for a view-source, chrome, resource or about page and for a page
    of a protected site, [updateTab] asks neither the page nor the add-on
    list: it ends in the same call of [setFrameColour] whatever they
    would answer, and it does not reject. *)
Theorem updateTab_classified_locally (URL_new : string -> Exc URL.t)
    (browser browser' : Browser.t) (management_getAll management_getAll' : Exc (list Addon.t))
    (default_aboutPageColour default_protectedPageColour : PageTable)
    (pref : Pref.t) (current : Current.t) (tab : Tab.t) (url : URL.t) :
  URL_new (Tab.url tab) = Ok url ->
  browser_or_protected_page default_protectedPageColour url ->
  updateTab URL_new browser management_getAll default_aboutPageColour
    default_protectedPageColour pref current tab
  = updateTab URL_new browser' management_getAll' default_aboutPageColour
      default_protectedPageColour pref current tab /\
  exists colour,
    updateTab URL_new browser management_getAll default_aboutPageColour
      default_protectedPageColour pref current tab
    = Ok (Tab.windowId tab, frame_colour colour).
Proof.
  intros Hurl Hpage. unfold updateTab. rewrite Hurl. cbn [bind].
  destruct (String.eqb (URL.protocol url) "view-source:") eqn:Ev;
    [split; [reflexivity | eexists; reflexivity] |].
  destruct (String.eqb (URL.protocol url) "chrome:" ||
            String.eqb (URL.protocol url) "resource:" ||
            String.eqb (URL.protocol url) "jar:file:") eqn:Ei.
  { destruct (endsWith (URL.href url) ".txt" || endsWith (URL.href url) ".css" ||
              endsWith (URL.href url) ".jsm" || endsWith (URL.href url) ".js");
      [split; [reflexivity | eexists; reflexivity] |].
    destruct (endsWith (URL.href url) ".png" || endsWith (URL.href url) ".jpg");
      (split; [reflexivity | eexists; reflexivity]). }
  destruct (String.eqb (URL.protocol url) "about:") eqn:Ea;
    [split; [reflexivity | eexists; reflexivity] |].
  destruct (has_key default_protectedPageColour (URL.hostname url)) eqn:Ep;
    [split; [reflexivity | eexists; reflexivity] |].
  exfalso. unfold browser_or_protected_page in Hpage.
  apply orb_false_iff in Ei. destruct Ei as [Ei _].
  apply orb_false_iff in Ei. destruct Ei as [Ec Er].
  apply String.eqb_neq in Ev, Ec, Er, Ea.
  destruct Hpage as [H | [H | [H | [H | H]]]]; congruence.
Qed.

(** A view-source page, with and without an add-on list. *)
Lemma updateTab_classified_locally_witness :
  exists colour,
    updateTab sample_URL sample_browser (Ok sample_addons) sample_aboutPageColour
      sample_protectedPageColour (sample_pref false []) (sample_current light)
      (sample_tab "view-source:https://example.com/" "example.com")
    = Ok (Tab.windowId (sample_tab "view-source:https://example.com/" "example.com"),
          frame_colour colour).
Proof.
  apply (proj2 (updateTab_classified_locally sample_URL sample_browser sample_browser
                  (Ok sample_addons) (Throw ConnectionError) sample_aboutPageColour
                  sample_protectedPageColour (sample_pref false []) (sample_current light)
                  (sample_tab "view-source:https://example.com/" "example.com")
                  (URL.mk "view-source:https://example.com/" "view-source:" ""
                     "https://example.com/")
                  eq_refl (or_introl eq_refl))).
Defined.

(** X13: a view-source page is PLAINTEXT, and a chrome or resource page is
    PLAINTEXT, IMAGEVIEWER or SYSTEM, for every preference, scheme and
    table: these pages never get a literal colour, a table colour or the
    FALLBACK or DEFAULT code. *)
Theorem updateTab_browser_pages (URL_new : string -> Exc URL.t) (browser : Browser.t)
    (management_getAll : Exc (list Addon.t))
    (default_aboutPageColour default_protectedPageColour : PageTable)
    (pref : Pref.t) (current : Current.t) (tab : Tab.t) (url : URL.t) :
  URL_new (Tab.url tab) = Ok url ->
  (URL.protocol url = "view-source:" ->
   updateTab URL_new browser management_getAll default_aboutPageColour
     default_protectedPageColour pref current tab
   = Ok (Tab.windowId tab, frame_colour (Code PLAINTEXT))) /\
  (URL.protocol url = "chrome:" \/ URL.protocol url = "resource:" ->
   exists code,
     updateTab URL_new browser management_getAll default_aboutPageColour
       default_protectedPageColour pref current tab
     = Ok (Tab.windowId tab, frame_colour (Code code)) /\
     (code = PLAINTEXT \/ code = IMAGEVIEWER \/ code = SYSTEM)).
Proof.
  intros Hurl. unfold updateTab. rewrite Hurl. cbn [bind]. split.
  - intros Hp. rewrite Hp. compare_texts. reflexivity.
  - intros [Hp | Hp]; rewrite Hp; compare_texts;
      (destruct (endsWith (URL.href url) ".txt" || endsWith (URL.href url) ".css" ||
                 endsWith (URL.href url) ".jsm" || endsWith (URL.href url) ".js");
       [exists PLAINTEXT; auto |]);
      (destruct (endsWith (URL.href url) ".png" || endsWith (URL.href url) ".jpg");
       [exists IMAGEVIEWER; auto | exists SYSTEM; auto]).
Qed.

(** The source view of a page. *)
Lemma updateTab_browser_pages_witness :
  updateTab sample_URL sample_browser (Ok sample_addons) sample_aboutPageColour
    sample_protectedPageColour (sample_pref true []) (sample_current dark)
    (sample_tab "view-source:https://example.com/" "example.com")
  = Ok (1%Z, frame_colour (Code PLAINTEXT)).
Proof.
  apply (proj1 (updateTab_browser_pages sample_URL sample_browser (Ok sample_addons)
                  sample_aboutPageColour sample_protectedPageColour (sample_pref true [])
                  (sample_current dark)
                  (sample_tab "view-source:https://example.com/" "example.com")
                  (URL.mk "view-source:https://example.com/" "view-source:" ""
                     "https://example.com/")
                  eq_refl) eq_refl).
Defined.

(** X14: a page of an extension gets the text of [getAddonPageColour] on
    its address without a message to the page, and any page that no
    earlier branch takes gets the colour of [getWebPageColour] without a
    look at the add-on list; [updateTab] rejects when the collaborator it
    asks does. *)
Theorem updateTab_one_collaborator (URL_new : string -> Exc URL.t)
    (browser browser' : Browser.t) (management_getAll management_getAll' : Exc (list Addon.t))
    (default_aboutPageColour default_protectedPageColour : PageTable)
    (pref : Pref.t) (current : Current.t) (tab : Tab.t) (url : URL.t) :
  URL_new (Tab.url tab) = Ok url ->
  ~ classified_locally default_protectedPageColour url ->
  (URL.protocol url = "moz-extension:" ->
   updateTab URL_new browser management_getAll default_aboutPageColour
     default_protectedPageColour pref current tab
   = updateTab URL_new browser' management_getAll default_aboutPageColour
       default_protectedPageColour pref current tab /\
   updateTab URL_new browser management_getAll default_aboutPageColour
     default_protectedPageColour pref current tab
   = (addonList <- management_getAll ;;
      Ok (Tab.windowId tab,
          frame_text (getAddonPageColour addonList pref (URL.href url))))) /\
  (URL.protocol url <> "moz-extension:" ->
   updateTab URL_new browser management_getAll default_aboutPageColour
     default_protectedPageColour pref current tab
   = updateTab URL_new browser management_getAll' default_aboutPageColour
       default_protectedPageColour pref current tab /\
   updateTab URL_new browser management_getAll default_aboutPageColour
     default_protectedPageColour pref current tab
   = (colour <- getWebPageColour browser pref (Some tab) ;;
      Ok (Tab.windowId tab, frame_colour colour))).
Proof.
  intros Hurl Hnot. unfold updateTab. rewrite Hurl. cbn [bind].
  unfold classified_locally in Hnot.
  assert (Ev : String.eqb (URL.protocol url) "view-source:" = false)
    by (apply String.eqb_neq; intros H; apply Hnot; auto).
  assert (Ec : String.eqb (URL.protocol url) "chrome:" = false)
    by (apply String.eqb_neq; intros H; apply Hnot; auto).
  assert (Er : String.eqb (URL.protocol url) "resource:" = false)
    by (apply String.eqb_neq; intros H; apply Hnot; auto).
  assert (Ej : String.eqb (URL.protocol url) "jar:file:" = false)
    by (apply String.eqb_neq; intros H; apply Hnot; auto 6).
  assert (Ea : String.eqb (URL.protocol url) "about:" = false)
    by (apply String.eqb_neq; intros H; apply Hnot; auto 7).
  assert (Ep : has_key default_protectedPageColour (URL.hostname url) = false)
    by (destruct (has_key default_protectedPageColour (URL.hostname url)); [| reflexivity];
        exfalso; apply Hnot; auto 8).
  rewrite Ev, Ec, Er, Ej, Ea, Ep. cbn [orb]. split.
  - intros Hm. apply String.eqb_eq in Hm. rewrite Hm. split; reflexivity.
  - intros Hm. apply String.eqb_neq in Hm. rewrite Hm. split; reflexivity.
Qed.

(** An extension's options page. *)
Lemma updateTab_one_collaborator_witness :
  updateTab sample_URL sample_browser (Ok sample_addons) sample_aboutPageColour
    sample_protectedPageColour (sample_pref false []) (sample_current light)
    (sample_tab "moz-extension://1234-abcd/options.html" "Options")
  = (addonList <- Ok sample_addons ;;
     Ok (Tab.windowId (sample_tab "moz-extension://1234-abcd/options.html" "Options"),
         frame_text (getAddonPageColour addonList (sample_pref false [])
                       "moz-extension://1234-abcd/options.html"))).
Proof.
  refine (proj2 (proj1 (updateTab_one_collaborator sample_URL sample_browser sample_browser
                          (Ok sample_addons) (Ok sample_addons) sample_aboutPageColour
                          sample_protectedPageColour (sample_pref false [])
                          (sample_current light)
                          (sample_tab "moz-extension://1234-abcd/options.html" "Options")
                          (URL.mk "moz-extension://1234-abcd/options.html"
                             "moz-extension:" "1234-abcd" "/options.html")
                          eq_refl _) eq_refl)).
  unfold classified_locally. simpl.
  intros [H | [H | [H | [H | [H | H]]]]]; discriminate.
Defined.

(** ** Setting the frame colour *)





(** X16: with "allow opposite scheme" off, every theme is applied under
    the current scheme, for a colour code and for a literal colour
    alike. *)
Theorem setFrameColour_current_scheme `{ColourLibrary} (pref : Pref.t) (current : Current.t)
    (windowId : Z) (colour : FrameColour) :
  Pref.allowDarkLight pref = false ->
  forall w c s,
    In (call_applyTheme w c s) (calls (setFrameColour pref current windowId colour)) ->
    w = windowId /\ s = Current.scheme current.
Proof.
  intros Hallow w c s. destruct colour as [code | colour]; unfold setFrameColour.
  - rewrite Hallow.
    destruct (colourCode current code (Current.scheme current));
      [| destruct (colourCode current code (Current.reversedScheme current))];
      simpl; intros [Hin | []]; injection Hin as <- _ <-; auto.
  - unfold contrastCorrection. cbv zeta. rewrite Hallow.
    destruct (Current.scheme current); simpl; rewrite ?andb_false_r, ?andb_true_r;
      repeat match goal with
             | |- context [if ?b then _ else _] => destruct b
             end;
      simpl; intros [Hin | [Hin | []]]; try discriminate;
      injection Hin as <- _ <-; auto.
Qed.

(** The image viewer code and a white page in the light scheme. *)
Lemma setFrameColour_current_scheme_witness :
  (1%Z = 1%Z /\ light = Current.scheme (sample_current light)) /\
  (1%Z = 1%Z /\ light = Current.scheme (sample_current light)).
Proof.
  split.
  - apply (@setFrameColour_current_scheme spec_colour_library (sample_pref false [])
             (sample_current light) 1%Z (Code IMAGEVIEWER) eq_refl
             1%Z (Some (RGBA 255 255 255 1)) light).
    left. reflexivity.
  - apply (@setFrameColour_current_scheme spec_colour_library (sample_pref false [])
             (sample_current light) 1%Z (Code HOME) eq_refl
             1%Z (Some (RGBA 255 255 255 1)) light).
    left. reflexivity.
Defined.

(** ** Contrast correction *)

(** X17: with "allow opposite scheme" on, the light theme comes first: a
    colour whose ratio against black exceeds the light minimum is returned
    as it is under the light scheme, also in the dark scheme and also when
    its ratio against white exceeds the dark minimum; the dark theme is
    chosen in the light scheme only for a colour that misses the light
    minimum and exceeds the dark one. *)
Theorem contrastCorrection_light_first `{ColourLibrary} (pref : Pref.t)
    (current : Current.t) (colour : Colour.t) :
  Pref.allowDarkLight pref = true ->
  (Pref.minContrast_light pref < contrastRatio colour (RGBA 0 0 0 1) ->
   contrastCorrection pref current colour = Some (Corrected.mk colour light)) /\
  (contrastRatio colour (RGBA 0 0 0 1) <= Pref.minContrast_light pref ->
   Pref.minContrast_dark pref < contrastRatio colour (RGBA 255 255 255 1) ->
   contrastCorrection pref current colour = Some (Corrected.mk colour dark)).
Proof.
  intros Hallow. unfold contrastCorrection, rgba. cbv zeta. rewrite Hallow. split.
  - intros Hl. rewrite (proj2 (gt_true _ _) Hl).
    destruct (Current.scheme current); reflexivity.
  - intros Hl Hd. rewrite (proj2 (gt_false _ _) Hl), (proj2 (gt_true _ _) Hd).
    destruct (Current.scheme current); reflexivity.
Qed.

(** White in the dark scheme gets the light theme, black in the light
    scheme the dark one. *)
Lemma contrastCorrection_light_first_witness :
  @contrastCorrection spec_colour_library (sample_pref true []) (sample_current dark) white
  = Some (Corrected.mk white light) /\
  @contrastCorrection spec_colour_library (sample_pref true []) (sample_current light) black
  = Some (Corrected.mk black dark).
Proof.
  split.
  - apply (proj1 (@contrastCorrection_light_first spec_colour_library (sample_pref true [])
                    (sample_current dark) white eq_refl)).
    simpl. fold black. fold white.
    rewrite contrast_white_black. lra.
  - apply (proj2 (@contrastCorrection_light_first spec_colour_library (sample_pref true [])
                    (sample_current light) black eq_refl)).
    + simpl. fold black. rewrite contrast_black_black. lra.
    + simpl. fold black. fold white. rewrite contrast_black_white. lra.
Defined.

(** ** Themes *)

(** X18: [applyTheme] updates the given window exactly once for either
    scheme, and the light and the dark theme are never the same theme,
    whatever the base colours and the coefficients. *)
Theorem applyTheme_light_dark_differ `{ColourLibrary} (pref pref' : Pref.t)
    (windowId : Z) (colour colour' : Colour.t) :
  exists theme theme',
    applyTheme pref windowId colour light = [theme_update windowId theme] /\
    applyTheme pref' windowId colour' dark = [theme_update windowId theme'] /\
    theme <> theme'.
Proof.
  exists (theme_light pref colour), (theme_dark pref' colour').
  split; [reflexivity |]. split; [reflexivity |].
  intros Heq.
  apply (f_equal (fun t => Colors.tab_background_text (Theme.colors t))) in Heq.
  discriminate Heq.
Qed.

(** ** Messages *)

(** X19: the handler itself, as opposed to the update routines it may
    start, calls [setFrameColour] in one case only: for a COLOUR_UPDATE
    message with a response from an active sender tab, and then on that
    tab's window and with the colour of the message.  A COLOUR_UPDATE
    message without a response from an active tab makes the handler
    throw. *)
Theorem handleMessage_sets_frame_colour (browser : Browser.t) (pref : Pref.t)
    (message : option Message.t) (sender_tab : option Tab.t) (windowId : Z)
    (colour : FrameColour) :
  (handleMessage browser pref message sender_tab = run_setFrameColour windowId colour <->
   exists tab m response,
     sender_tab = Some tab /\ Tab.active tab = true /\ windowId = Tab.windowId tab /\
     message = Some m /\ Message.reason m = Some "COLOUR_UPDATE" /\
     Message.response m = Some response /\ colour = Response.colour response) /\
  (forall tab m,
     sender_tab = Some tab -> Tab.active tab = true ->
     message = Some m -> Message.reason m = Some "COLOUR_UPDATE" ->
     Message.response m = None ->
     handleMessage browser pref message sender_tab = throws TypeError).
Proof.
  split; [split |].
  - unfold handleMessage.
    destruct sender_tab as [tab |]; [| discriminate].
    destruct (Tab.active tab) eqn:Hactive; [| discriminate].
    unfold actions.
    destruct (String.eqb (reason_key message) "INIT_REQUEST"); [discriminate |].
    destruct (String.eqb (reason_key message) "UPDATE_REQUEST"); [discriminate |].
    destruct (String.eqb (reason_key message) "SCRIPT_LOADED"); [discriminate |].
    destruct (String.eqb (reason_key message) "COLOUR_UPDATE") eqn:Hkey.
    + apply String.eqb_eq in Hkey.
      destruct message as [m |]; [| discriminate].
      destruct (Message.response m) as [response |] eqn:Hresponse; [| discriminate].
      intros H. injection H as <- <-.
      exists tab, m, response. repeat split; try assumption.
      unfold reason_key in Hkey.
      destruct (Message.reason m) as [reason |]; [congruence | discriminate].
    + destruct (String_mem (reason_key message) Object_prototype); [| discriminate].
      destruct (String_mem (reason_key message) Object_prototype_throwing); discriminate.
  - intros (tab & m & response & -> & Hactive & -> & -> & Hreason & Hresponse & ->).
    unfold handleMessage, reason_key, actions.
    rewrite Hactive, Hreason, Hresponse. reflexivity.
  - intros tab m -> Hactive -> Hreason Hresponse.
    unfold handleMessage, reason_key, actions.
    rewrite Hactive, Hreason, Hresponse. reflexivity.
Qed.

(** A page reporting a new colour. *)
Lemma handleMessage_sets_frame_colour_witness :
  handleMessage sample_browser (sample_pref false [])
    (Some (Message.mk (Some "COLOUR_UPDATE") (Some (Response.mk (Literal white)))))
    (Some (sample_tab "https://example.com/" "Example Domain"))
  = run_setFrameColour 1%Z (Literal white).
Proof.
  apply (proj2 (proj1 (handleMessage_sets_frame_colour sample_browser (sample_pref false [])
                  (Some (Message.mk (Some "COLOUR_UPDATE")
                           (Some (Response.mk (Literal white)))))
                  (Some (sample_tab "https://example.com/" "Example Domain"))
                  1%Z (Literal white)))).
  exists (sample_tab "https://example.com/" "Example Domain"),
    (Message.mk (Some "COLOUR_UPDATE") (Some (Response.mk (Literal white)))),
    (Response.mk (Literal white)).
  repeat split.
Defined.
